(** * cmd/syncthing/generate: the [syncthing generate] subcommand

    A shallow embedding of [generate.go] (CLI.Run, Generate and
    updateGUIAuthentication) as state-passing functions over an explicit
    process state, together with the properties of the bootstrap protocol.

    The packages the file imports (lib/config, lib/locations, lib/fs,
    lib/syncthing, lib/protocol, crypto/tls) are collaborators: their
    operations are the fields of an [Env] record and every theorem holds
    for all environments.  Each call made to a collaborator is recorded,
    with its arguments and its result, in a chronological trace. *)

From Stdlib Require Import String Ascii List Bool Arith Lia.
Import ListNotations.
Local Open Scope string_scope.
Local Open Scope list_scope.

(** ** Go values *)

(** Go [error] values.  [ErrMsg] is an error created from a message
    (errors.New, or fmt.Errorf without a verb); [ErrWrap m e] is
    [fmt.Errorf(m + ": %w", e)]. *)
Inductive error : Type :=
| ErrMsg (msg : string)
| ErrWrap (msg : string) (cause : error).

Fixpoint error_eqb (a b : error) : bool :=
  match a, b with
  | ErrMsg m, ErrMsg n => String.eqb m n
  | ErrWrap m x, ErrWrap n y => String.eqb m n && error_eqb x y
  | _, _ => false
  end.

(** A Go result pair [(value, err)]: the value is only meaningful when
    [err == nil]. *)
Inductive Result (A : Type) : Type :=
| Ok (a : A)
| Error (e : error).
Arguments Ok {A} a.
Arguments Error {A} e.

(** protocol.DeviceID is [32]byte. *)
Record DeviceID : Type := mkDeviceID { id_bytes : string }.

(** tls.Certificate: the DER chain and the private key. *)
Record Certificate : Type := mkCertificate {
  cert_Certificate : list string;
  cert_PrivateKey : string
}.

(** config.GUIConfiguration.  Only [User] and [Password] are touched by
    this package; the remaining fields are carried along in [gui_rest]. *)
Record GUIConfiguration : Type := mkGUI {
  User : string;
  Password : string;
  gui_rest : list (string * string)
}.

(** config.Configuration: the GUI sub-record and the rest of the schema. *)
Record Configuration : Type := mkConfiguration {
  GUI : GUIConfiguration;
  cfg_rest : list (string * string)
}.

Definition set_User (g : GUIConfiguration) (u : string) : GUIConfiguration :=
  mkGUI u (Password g) (gui_rest g).

Definition set_Password (g : GUIConfiguration) (p : string) : GUIConfiguration :=
  mkGUI (User g) p (gui_rest g).

Definition set_GUI (c : Configuration) (g : GUIConfiguration) : Configuration :=
  mkConfiguration g (cfg_rest c).

(** cmdutil.CommonOptions embedded in CLI, and CLI itself. *)
Record CLI : Type := mkCLI {
  ConfDir : string;
  HomeDir : string;
  NoDefaultFolder : bool;
  SkipPortProbing : bool;
  HideConsole : bool;
  GUIUser : string;
  GUIPassword : string
}.

Definition set_ConfDir (c : CLI) (d : string) : CLI :=
  mkCLI d (HomeDir c) (NoDefaultFolder c) (SkipPortProbing c) (HideConsole c)
        (GUIUser c) (GUIPassword c).

Definition set_GUIPassword (c : CLI) (p : string) : CLI :=
  mkCLI (ConfDir c) (HomeDir c) (NoDefaultFolder c) (SkipPortProbing c)
        (HideConsole c) (GUIUser c) p.

(** locations.LocationEnum, as far as Generate uses it. *)
Inductive LocationEnum : Type := CertFile | KeyFile | ConfigFile.

(** ** Standard input and bufio.Reader.ReadLine *)

(** What os.Stdin will deliver: the bytes still to come, then the error
    every later read returns (io.EOF at the end of input, or an I/O
    failure). *)
Record Stdin : Type := mkStdin {
  in_bytes : string;
  in_err : error
}.

Definition io_EOF : error := ErrMsg "EOF".

(** bufio.NewReader allocates a buffer of defaultBufSize bytes. *)
Definition defaultBufSize : nat := 4096.

Definition newline : ascii := ascii_of_nat 10.
Definition carriage_return : ascii := ascii_of_nat 13.

(** Position of the first [d] among the first [n] bytes of [s]. *)
Fixpoint index_byte (d : ascii) (n : nat) (s : string) : option nat :=
  match n, s with
  | S n', String c s' =>
      if Ascii.eqb c d then Some 0
      else match index_byte d n' s' with
           | Some i => Some (S i)
           | None => None
           end
  | _, _ => None
  end.

Definition last_byte_is (c : ascii) (s : string) : bool :=
  match String.length s with
  | 0 => false
  | S n => match String.get n s with
           | Some x => Ascii.eqb x c
           | None => false
           end
  end.

Definition drop_last (k : nat) (s : string) : string :=
  substring 0 (String.length s - k) s.

(** The error of a ReadSlice call: bufio.ErrBufferFull, or the error of
    the underlying reader. *)
Inductive SliceError : Type :=
| ErrBufferFull
| ErrRead (e : error).

(** bufio.Reader.ReadSlice on a fresh reader of [size] bytes: the
    bytes up to and including the first delimiter found in the buffer;
    with the buffer full and no delimiter, the whole buffer and
    ErrBufferFull; when the input ends first, what was read and the
    input's error. *)
Definition ReadSlice (size : nat) (delim : ascii) (r : Stdin)
  : string * option SliceError :=
  match index_byte delim size (in_bytes r) with
  | Some i => (substring 0 (S i) (in_bytes r), None)
  | None =>
      if (size <=? String.length (in_bytes r))%nat
      then (substring 0 size (in_bytes r), Some ErrBufferFull)
      else (in_bytes r, Some (ErrRead (in_err r)))
  end.

(** bufio.Reader.ReadLine, following the standard library: a line too
    long for the buffer comes back as its beginning with isPrefix set
    (a carriage return straddling the buffer is put back); with no byte
    read the reader's error is returned; otherwise the error is dropped
    and the end-of-line bytes are cut off. *)
Definition ReadLine_sized (size : nat) (r : Stdin)
  : string * bool * option error :=
  let '(line, err) := ReadSlice size newline r in
  match err with
  | Some ErrBufferFull =>
      ((if last_byte_is carriage_return line then drop_last 1 line else line),
       true, None)
  | _ =>
      if (String.length line =? 0)%nat then
        match err with
        | Some (ErrRead e) => ("", false, Some e)
        | _ => (line, false, None)
        end
      else if last_byte_is newline line then
        ((if (1 <? String.length line)%nat
              && last_byte_is carriage_return (drop_last 1 line)
          then drop_last 2 line else drop_last 1 line),
         false, None)
      else (line, false, None)
  end.

Definition ReadLine (r : Stdin) : string * bool * option error :=
  ReadLine_sized defaultBufSize r.

Fixpoint has_byte (d : ascii) (s : string) : bool :=
  match s with
  | EmptyString => false
  | String c s' => Ascii.eqb c d || has_byte d s'
  end.

(** ** Calls to collaborators *)

(** An argument of log.Println. *)
Inductive LogArg : Type :=
| LStr (s : string)
| LDeviceID (id : DeviceID).

(** One entry of the trace: a call this package makes, with the
    arguments it passes and the result it receives. *)
Inductive Event : Type :=
| EvLogSetFlags (flags : nat)
| EvHideConsole
| EvReadLine (line : string) (isPrefix : bool) (err : option error)
| EvExpandTilde (path : string) (res : Result string)
| EvEnsureDir (dir : string) (mode : nat) (err : option error)
| EvSetBaseDir (dir : string)
| EvLoadX509KeyPair (certFile keyFile : string) (res : Result Certificate)
| EvGenerateCertificate (certFile keyFile : string) (res : Result Certificate)
| EvLog (args : list LogArg)
| EvConfigLoad (cfgFile : string) (myID : DeviceID) (res : Result Configuration)
| EvDefaultConfig (cfgFile : string) (myID : DeviceID)
                  (noDefaultFolder skipPortProbing : bool)
                  (res : Result Configuration)
| EvServe
| EvModify (err : option error)
| EvWait
| EvHash (password : string) (res : Result string)
| EvSave (cfg : Configuration) (err : option error)
| EvCancel.

Definition is_GenerateCertificate (e : Event) : bool :=
  match e with EvGenerateCertificate _ _ _ => true | _ => false end.

Definition is_DefaultConfig (e : Event) : bool :=
  match e with EvDefaultConfig _ _ _ _ _ => true | _ => false end.

Definition is_Save (e : Event) : bool :=
  match e with EvSave _ _ => true | _ => false end.

Definition is_Hash (e : Event) : bool :=
  match e with EvHash _ _ => true | _ => false end.

Definition is_Log (e : Event) : bool :=
  match e with EvLog _ => true | _ => false end.

Definition is_ReadLine (e : Event) : bool :=
  match e with EvReadLine _ _ _ => true | _ => false end.

Definition is_Serve (e : Event) : bool :=
  match e with EvServe => true | _ => false end.

Definition is_Cancel (e : Event) : bool :=
  match e with EvCancel => true | _ => false end.

Definition is_ConfigLoad (e : Event) : bool :=
  match e with EvConfigLoad _ _ _ => true | _ => false end.

Definition is_Wait (e : Event) : bool :=
  match e with EvWait => true | _ => false end.

Definition is_SetBaseDir (e : Event) : bool :=
  match e with EvSetBaseDir _ => true | _ => false end.

Definition is_LoadX509KeyPair (e : Event) : bool :=
  match e with EvLoadX509KeyPair _ _ _ => true | _ => false end.

(** The collaborators, over the state [World] of everything outside the
    process (file system, network, entropy, package-level variables of
    lib/locations).  Operations that only read take the world; the
    others also return the world they leave behind. *)
Record Env (World : Type) : Type := mkEnv {
  osutil_HideConsole : World -> World;
  locations_GetBaseDir : World -> string;
  locations_SetBaseDir : string -> World -> World;
  locations_Get : LocationEnum -> World -> string;
  fs_ExpandTilde : string -> World -> Result string;
  fs_IsNotExist : error -> bool;
  syncthing_EnsureDir : string -> nat -> World -> option error * World;
  tls_LoadX509KeyPair : string -> string -> World -> Result Certificate;
  syncthing_GenerateCertificate :
    string -> string -> World -> Result Certificate * World;
  protocol_NewDeviceID : string -> DeviceID;
  config_Load : string -> DeviceID -> World -> Result Configuration;
  syncthing_DefaultConfig :
    string -> DeviceID -> bool -> bool -> World -> Result Configuration * World;
  bcrypt_GenerateFromPassword : string -> World -> Result string * World;
  config_Modify_err : World -> option error;
  config_Save : Configuration -> World -> option error * World
}.
Arguments osutil_HideConsole {World} _.
Arguments locations_GetBaseDir {World} _.
Arguments locations_SetBaseDir {World} _.
Arguments locations_Get {World} _.
Arguments fs_ExpandTilde {World} _.
Arguments fs_IsNotExist {World} _.
Arguments syncthing_EnsureDir {World} _.
Arguments tls_LoadX509KeyPair {World} _.
Arguments syncthing_GenerateCertificate {World} _.
Arguments protocol_NewDeviceID {World} _.
Arguments config_Load {World} _.
Arguments syncthing_DefaultConfig {World} _.
Arguments bcrypt_GenerateFromPassword {World} _.
Arguments config_Modify_err {World} _.
Arguments config_Save {World} _.

(** os.FileMode 0700. *)
Definition mode_0700 : nat := 448.

(** ** The process state and the monad of Generate *)

(** What a Go function call comes to: a value, a returned error, or a
    run-time panic. *)
Inductive Outcome (A : Type) : Type :=
| Val (a : A)
| Fail (e : error)
| Panic (msg : string).
Arguments Val {A} a.
Arguments Fail {A} e.
Arguments Panic {A} msg.

Section Program.

Variable World : Type.
Variable E : Env World.

(** [st_updateErr] is the local variable [updateErr] of Generate, which
    the mutation closure captures and assigns. *)
Record State : Type := mkState {
  st_world : World;
  st_trace : list Event;
  st_updateErr : option error
}.

Definition M (A : Type) : Type := State -> Outcome A * State.

Definition ret {A} (a : A) : M A := fun s => (Val a, s).

Definition bind {A B} (m : M A) (k : A -> M B) : M B :=
  fun s =>
    match m s with
    | (Val a, s') => k a s'
    | (Fail e, s') => (Fail e, s')
    | (Panic msg, s') => (Panic msg, s')
    end.

Definition fail {A} (e : error) : M A := fun s => (Fail e, s).

Definition panic {A} (msg : string) : M A := fun s => (Panic msg, s).

Notation "x <- m ;; k" := (bind m (fun x => k))
  (at level 61, m at next level, right associativity).
Notation "m ;;; k" := (bind m (fun _ => k))
  (at level 61, right associativity).

Definition emit (e : Event) (s : State) : State :=
  mkState (st_world s) (st_trace s ++ [e]) (st_updateErr s).

Definition with_world (w : World) (s : State) : State :=
  mkState w (st_trace s) (st_updateErr s).

Definition assign_updateErr (e : option error) (s : State) : State :=
  mkState (st_world s) (st_trace s) e.

(** log.Println *)
Definition log_Println (args : list LogArg) : M unit :=
  fun s => (Val tt, emit (EvLog args) s).

Definition call_ExpandTilde (path : string) : M (Result string) :=
  fun s =>
    let r := fs_ExpandTilde E path (st_world s) in
    (Val r, emit (EvExpandTilde path r) s).

Definition call_EnsureDir (dir : string) (mode : nat) : M (option error) :=
  fun s =>
    let '(err, w) := syncthing_EnsureDir E dir mode (st_world s) in
    (Val err, emit (EvEnsureDir dir mode err) (with_world w s)).

Definition call_SetBaseDir (dir : string) : M unit :=
  fun s =>
    (Val tt,
     emit (EvSetBaseDir dir) (with_world (locations_SetBaseDir E dir (st_world s)) s)).

Definition call_Get (l : LocationEnum) : M string :=
  fun s => (Val (locations_Get E l (st_world s)), s).

Definition call_LoadX509KeyPair (certFile keyFile : string)
  : M (Result Certificate) :=
  fun s =>
    let r := tls_LoadX509KeyPair E certFile keyFile (st_world s) in
    (Val r, emit (EvLoadX509KeyPair certFile keyFile r) s).

Definition call_GenerateCertificate (certFile keyFile : string)
  : M (Result Certificate) :=
  fun s =>
    let '(r, w) := syncthing_GenerateCertificate E certFile keyFile (st_world s) in
    (Val r, emit (EvGenerateCertificate certFile keyFile r) (with_world w s)).

Definition call_config_Load (cfgFile : string) (myID : DeviceID)
  : M (Result Configuration) :=
  fun s =>
    let r := config_Load E cfgFile myID (st_world s) in
    (Val r, emit (EvConfigLoad cfgFile myID r) s).

Definition call_DefaultConfig (cfgFile : string) (myID : DeviceID)
           (noDefaultFolder skipPortProbing : bool) : M (Result Configuration) :=
  fun s =>
    let '(r, w) :=
      syncthing_DefaultConfig E cfgFile myID noDefaultFolder skipPortProbing
                              (st_world s) in
    (Val r,
     emit (EvDefaultConfig cfgFile myID noDefaultFolder skipPortProbing r)
          (with_world w s)).

(** Indexing a slice at 0, as in [cert.Certificate[0]]. *)
Definition index0 {A} (l : list A) : M A :=
  match l with
  | x :: _ => ret x
  | [] => panic "runtime error: index out of range [0] with length 0"
  end.

(** ** The GUI credential updater *)

(** Modelled from the spec: GUIConfiguration.HashAndSetPassword, a method
    of lib/config that is not part of this package.  Section 4.5: it
    computes a one-way hash of the new password and replaces the stored
    hash, and fails when the hashing primitive fails.  The hashing
    primitive itself is the environment's bcrypt_GenerateFromPassword;
    it is salted, hence reads and advances the world. *)
Definition HashAndSetPassword (guiCfg : GUIConfiguration) (password : string)
           (s : State) : GUIConfiguration * option error * State :=
  let '(r, w) := bcrypt_GenerateFromPassword E password (st_world s) in
  let s' := emit (EvHash password r) (with_world w s) in
  match r with
  | Error err => (guiCfg, Some err, s')
  | Ok hash => (set_Password guiCfg hash, None, s')
  end.

Definition nonempty (x : string) : bool := negb (String.eqb x "").

Definition differs (x y : string) : bool := negb (String.eqb x y).

(** updateGUIAuthentication mutates [*guiCfg] and returns an error: the
    record it leaves behind and the error are both results here. *)
Definition updateGUIAuthentication (guiCfg : GUIConfiguration)
           (guiUser guiPassword : string) (s : State)
  : GUIConfiguration * option error * State :=
  let '(guiCfg, s) :=
    if nonempty guiUser && differs (User guiCfg) guiUser then
      (set_User guiCfg guiUser,
       emit (EvLog [LStr "Updated GUI authentication user name:"; LStr guiUser]) s)
    else (guiCfg, s) in
  if nonempty guiPassword && differs (Password guiCfg) guiPassword then
    match HashAndSetPassword guiCfg guiPassword s with
    | (guiCfg, Some err, s) =>
        (guiCfg,
         Some (ErrWrap "failed to set GUI authentication password" err), s)
    | (guiCfg, None, s) =>
        (guiCfg, None,
         emit (EvLog [LStr "Updated GUI authentication password."]) s)
    end
  else (guiCfg, None, s).

(** The user-name half of updateGUIAuthentication (lines 125-128): the
    record and the state it leaves to the password half. *)
Definition after_user (guiCfg : GUIConfiguration) (guiUser : string)
           (s : State) : GUIConfiguration * State :=
  if nonempty guiUser && differs (User guiCfg) guiUser then
    (set_User guiCfg guiUser,
     emit (EvLog [LStr "Updated GUI authentication user name:"; LStr guiUser]) s)
  else (guiCfg, s).

(** ** The Configuration Actor *)

(** config.ModifyFunction: a closure over the configuration; it returns
    nothing and may assign the variables it captures. *)
Definition ModifyFunction : Type :=
  Configuration -> State -> Configuration * State.

(** Modelled from the spec: the Configuration Actor, config.Wrapper of
    lib/config with its Serve, Modify, Waiter.Wait and Save, which is
    not part of this package.  Section 4.4: while serving it owns the
    in-memory configuration, accepts mutation requests and applies them
    one at a time in the order received; a caller unblocked from a
    Waiter finds its mutation applied in memory; persisting is a
    separate operation that no mutation triggers.  [wr_queue] holds the
    requests not yet applied and [wr_applied] counts those applied. *)
Record Wrapper : Type := mkWrapper {
  wr_cfg : Configuration;
  wr_queue : list ModifyFunction;
  wr_applied : nat;
  wr_serving : bool
}.

(** A Waiter is the number of requests that must have been applied
    before it lets its caller go on. *)
Definition Waiter : Type := nat.

Definition NewWrapper (cfg : Configuration) : Wrapper :=
  mkWrapper cfg [] 0 false.

(** [go cfg.Serve(ctx)]: Stopped -> Serving. *)
Definition Wrapper_Serve (w : Wrapper) : M Wrapper :=
  fun s =>
    (Val (mkWrapper (wr_cfg w) (wr_queue w) (wr_applied w) true), emit EvServe s).

(** cfg.Modify(fn): the request is queued and its Waiter handed out.
    The source lets Modify return an error and the spec does not say
    when: that is the environment's decision, and a refused request is
    not queued. *)
Definition Wrapper_Modify (w : Wrapper) (fn : ModifyFunction)
  : M (Result (Waiter * Wrapper)) :=
  fun s =>
    match config_Modify_err E (st_world s) with
    | Some err => (Val (Error err), emit (EvModify (Some err)) s)
    | None =>
        let q := wr_queue w ++ [fn] in
        (Val (Ok (wr_applied w + List.length q,
                  mkWrapper (wr_cfg w) q (wr_applied w) (wr_serving w))),
         emit (EvModify None) s)
    end.

(** The serving loop applying the [n] oldest queued requests. *)
Fixpoint apply_pending (n : nat) (w : Wrapper) (s : State) : Wrapper * State :=
  match n, wr_queue w with
  | S n', fn :: q =>
      let '(cfg, s') := fn (wr_cfg w) s in
      apply_pending n' (mkWrapper cfg q (S (wr_applied w)) (wr_serving w)) s'
  | _, _ => (w, s)
  end.

(** waiter.Wait(): returns once the serving loop has applied the
    request; with no serving loop the caller would block for ever, which
    the Go run time reports as a deadlock. *)
Definition Waiter_Wait (waiter : Waiter) (w : Wrapper) : M Wrapper :=
  fun s =>
    if wr_serving w then
      let '(w', s') := apply_pending (waiter - wr_applied w) w s in
      (Val w', emit EvWait s')
    else (Panic "fatal error: all goroutines are asleep - deadlock!", s).

(** cfg.Save(): the explicit persist operation, on the configuration
    currently in memory. *)
Definition Wrapper_Save (w : Wrapper) : M (option error) :=
  fun s =>
    let '(err, world) := config_Save E (wr_cfg w) (st_world s) in
    (Val err, emit (EvSave (wr_cfg w) err) (with_world world s)).

(** [defer cancel()]: the cancellation runs when the function returns,
    whatever the way. *)
Definition defer_cancel {A} (body : M A) : M A :=
  fun s => let '(o, s') := body s in (o, emit EvCancel s').

(** The state a process starts from. *)
Definition initial (w : World) : State := mkState w [] None.

(** ** Generate *)

Definition Generate (confDir guiUser guiPassword : string)
           (noDefaultFolder skipPortProbing : bool) : M unit :=
  r <- call_ExpandTilde confDir ;;
  match r with
  | Error err => fail err
  | Ok dir =>
  err <- call_EnsureDir dir mode_0700 ;;
  match err with
  | Some err => fail err
  | None =>
  call_SetBaseDir dir ;;;
  certFile <- call_Get CertFile ;;
  keyFile <- call_Get KeyFile ;;
  r <- call_LoadX509KeyPair certFile keyFile ;;
  cert <- match r with
          | Ok cert =>
              log_Println [LStr "WARNING: Key exists; will not overwrite."] ;;;
              ret cert
          | Error _ =>
              r <- call_GenerateCertificate certFile keyFile ;;
              match r with
              | Error err => fail (ErrWrap "create certificate" err)
              | Ok cert => ret cert
              end
          end ;;
  raw <- index0 (cert_Certificate cert) ;;
  let myID := protocol_NewDeviceID E raw in
  log_Println [LStr "Device ID:"; LDeviceID myID] ;;;
  cfgFile <- call_Get ConfigFile ;;
  r <- call_config_Load cfgFile myID ;;
  cfg <- match r with
         | Error err =>
             if fs_IsNotExist E err then
               r <- call_DefaultConfig cfgFile myID noDefaultFolder skipPortProbing ;;
               match r with
               | Error err => fail (ErrWrap "create config" err)
               | Ok c => ret (NewWrapper c)
               end
             else fail (ErrWrap "load config" err)
         | Ok c => ret (NewWrapper c)
         end ;;
  cfg <- Wrapper_Serve cfg ;;
  defer_cancel (
    (fun s => (Val tt, assign_updateErr None s)) ;;;
    r <- Wrapper_Modify cfg
           (fun c s =>
              let '(gui, err, s') :=
                updateGUIAuthentication (GUI c) guiUser guiPassword s in
              (set_GUI c gui, assign_updateErr err s')) ;;
    match r with
    | Error err => fail (ErrWrap "modify config" err)
    | Ok (waiter, cfg) =>
    cfg <- Waiter_Wait waiter cfg ;;
    updateErr <- (fun s => (Val (st_updateErr s), s)) ;;
    match updateErr with
    | Some err => fail err
    | None =>
    err <- Wrapper_Save cfg ;;
    match err with
    | Some err => fail (ErrWrap "save config" err)
    | None => ret tt
    end
    end
    end)
  end
  end.

(** ** CLI.Run *)

(** Run has a pointer receiver: the CLI it leaves behind is a result,
    next to the error.  [stdin] is what os.Stdin will deliver. *)
Definition Run (c : CLI) (stdin : Stdin) (s : State)
  : CLI * Outcome unit * State :=
  let s := emit (EvLogSetFlags 0) s in
  let s := if HideConsole c
           then emit EvHideConsole (with_world (osutil_HideConsole E (st_world s)) s)
           else s in
  if nonempty (HomeDir c) && nonempty (ConfDir c) then
    (c, Fail (ErrMsg "--home must not be used together with --config"), s)
  else
  let c := if nonempty (HomeDir c) then set_ConfDir c (HomeDir c) else c in
  let c := if String.eqb (ConfDir c) ""
           then set_ConfDir c (locations_GetBaseDir E (st_world s))
           else c in
  let resolved :=
    if String.eqb (GUIPassword c) "-" then
      let '(password, isPrefix, err) := ReadLine stdin in
      let s := emit (EvReadLine password isPrefix err) s in
      match err with
      | Some err => (c, Some (ErrWrap "failed reading GUI password" err), s)
      | None => (set_GUIPassword c password, None, s)
      end
    else (c, None, s) in
  match resolved with
  | (c, Some err, s) => (c, Fail err, s)
  | (c, None, s) =>
      match Generate (ConfDir c) (GUIUser c) (GUIPassword c)
                     (NoDefaultFolder c) (SkipPortProbing c) s with
      | (Fail err, s) =>
          (c, Fail (ErrWrap "failed to generate config and keys" err), s)
      | (o, s) => (c, o, s)
      end
  end.

(** The parts of Run, for the statements about it: what lines 35-39
    do to the state, what lines 41-49 do to the directory options when
    they do not conflict, and the call of Generate of lines 61-64. *)
Definition Run_prelude (c : CLI) (s : State) : State :=
  let s := emit (EvLogSetFlags 0) s in
  if HideConsole c
  then emit EvHideConsole (with_world (osutil_HideConsole E (st_world s)) s)
  else s.

Definition Run_directory (c : CLI) (w : World) : CLI :=
  let c := if nonempty (HomeDir c) then set_ConfDir c (HomeDir c) else c in
  if String.eqb (ConfDir c) ""
  then set_ConfDir c (locations_GetBaseDir E w)
  else c.

Definition Run_generate (c : CLI) (s : State) : CLI * Outcome unit * State :=
  match Generate (ConfDir c) (GUIUser c) (GUIPassword c)
                 (NoDefaultFolder c) (SkipPortProbing c) s with
  | (Fail err, s) =>
      (c, Fail (ErrWrap "failed to generate config and keys" err), s)
  | (o, s) => (c, o, s)
  end.

End Program.

Arguments st_world {World} _.
Arguments st_trace {World} _.
Arguments st_updateErr {World} _.
Arguments mkState {World} _ _ _.
Arguments emit {World} _ _.
Arguments with_world {World} _ _.
Arguments initial {World} _.
Arguments after_user {World} guiCfg guiUser s.
Arguments updateGUIAuthentication {World} E guiCfg guiUser guiPassword s.
Arguments HashAndSetPassword {World} E guiCfg password s.
Arguments Generate {World} E confDir guiUser guiPassword noDefaultFolder skipPortProbing _.
Arguments Run {World} E c stdin s.
Arguments Run_prelude {World} E c s.
Arguments Run_directory {World} E c w.
Arguments Run_generate {World} E c s.

(** ** Observations on traces *)

(** The persist protocol as a monitor reading the trace from the left.
    Phases: [Idle] before the mutation is queued, [Queued] once Modify
    has accepted it, [Applied] once the Waiter has let the caller go on,
    [Persisted] after the Save.  A Save is accepted in [Applied] only. *)
Inductive Phase : Type := Idle | Queued | Applied | Persisted.

Fixpoint persist_protocol (p : Phase) (tr : list Event) : bool :=
  match tr with
  | [] => true
  | EvModify None :: tr' =>
      match p with
      | Idle => persist_protocol Queued tr'
      | _ => false
      end
  | EvWait :: tr' =>
      match p with
      | Queued => persist_protocol Applied tr'
      | _ => false
      end
  | EvSave _ _ :: tr' =>
      match p with
      | Applied => persist_protocol Persisted tr'
      | _ => false
      end
  | _ :: tr' => persist_protocol p tr'
  end.

Definition no_event (f : Event -> bool) (tr : list Event) : bool :=
  negb (existsb f tr).

(** What a view of the key material stored in the world must satisfy:
    every collaborator other than the certificate-generation primitive
    leaves it as it is. *)
Record KeyView {World : Type} (E : Env World) (K : Type) : Type := mkKeyView {
  key_material : World -> K;
  kv_HideConsole : forall w,
      key_material (osutil_HideConsole E w) = key_material w;
  kv_SetBaseDir : forall d w,
      key_material (locations_SetBaseDir E d w) = key_material w;
  kv_EnsureDir : forall d m w,
      key_material (snd (syncthing_EnsureDir E d m w)) = key_material w;
  kv_DefaultConfig : forall f i a b w,
      key_material (snd (syncthing_DefaultConfig E f i a b w)) = key_material w;
  kv_bcrypt : forall p w,
      key_material (snd (bcrypt_GenerateFromPassword E p w)) = key_material w;
  kv_Save : forall c w,
      key_material (snd (config_Save E c w)) = key_material w
}.
Arguments key_material {World E K} _ _.

(** ** A simulated environment

    A small in-memory world on which the program can be run: the
    certificate pair and the configuration file of the base directory,
    and whether the hashing primitive is out of resources. *)
Module Sim.

Inductive CertStore : Type :=
| CertAbsent
| CertMalformed (pem : string)
| CertValid (c : Certificate).

Inductive ConfigStore : Type :=
| ConfigAbsent
| ConfigCorrupt (xml : string)
| ConfigPresent (c : Configuration).

Record World : Type := mkWorld {
  baseDir : string;
  certs : CertStore;
  config : ConfigStore;
  bcrypt_err : option error;
  console_hidden : bool
}.

Definition ErrNotExist : error := ErrMsg "file does not exist".

Definition fresh_cert : Certificate :=
  mkCertificate ["fresh-der"] "fresh-key".

Definition default_config (myID : DeviceID) (noDefaultFolder skipPortProbing : bool)
  : Configuration :=
  mkConfiguration
    (mkGUI "" "" [])
    ([("device", id_bytes myID)]
       ++ (if noDefaultFolder then [] else [("folder", "default")])
       ++ (if skipPortProbing then [] else [("probed", "yes")])).

Definition env : Env World := {|
  osutil_HideConsole w :=
    mkWorld (baseDir w) (certs w) (config w) (bcrypt_err w) true;
  locations_GetBaseDir w := baseDir w;
  locations_SetBaseDir d w :=
    mkWorld d (certs w) (config w) (bcrypt_err w) (console_hidden w);
  locations_Get l w :=
    match l with
    | CertFile => (baseDir w ++ "/cert.pem")%string
    | KeyFile => (baseDir w ++ "/key.pem")%string
    | ConfigFile => (baseDir w ++ "/config.xml")%string
    end;
  fs_ExpandTilde path w := Ok path;
  fs_IsNotExist e := error_eqb e ErrNotExist;
  syncthing_EnsureDir d m w := (None, w);
  tls_LoadX509KeyPair cf kf w :=
    match certs w with
    | CertAbsent => Error ErrNotExist
    | CertMalformed _ =>
        Error (ErrMsg "tls: failed to find any PEM data in certificate input")
    | CertValid c => Ok c
    end;
  syncthing_GenerateCertificate cf kf w :=
    (Ok fresh_cert,
     mkWorld (baseDir w) (CertValid fresh_cert) (config w) (bcrypt_err w)
             (console_hidden w));
  protocol_NewDeviceID raw := mkDeviceID ("sha256:" ++ raw)%string;
  config_Load f myID w :=
    match config w with
    | ConfigAbsent => Error ErrNotExist
    | ConfigCorrupt _ => Error (ErrMsg "XML syntax error")
    | ConfigPresent c => Ok c
    end;
  syncthing_DefaultConfig f myID a b w := (Ok (default_config myID a b), w);
  bcrypt_GenerateFromPassword p w :=
    (match bcrypt_err w with
     | Some e => Error e
     | None => Ok ("$2a$10$" ++ p)%string
     end, w);
  config_Modify_err w := None;
  config_Save c w :=
    (None,
     mkWorld (baseDir w) (certs w) (ConfigPresent c) (bcrypt_err w)
             (console_hidden w))
|}.

Definition keys : KeyView env CertStore.
Proof.
  refine (mkKeyView World env CertStore certs _ _ _ _ _ _);
    intros; reflexivity.
Defined.

Definition old_cert : Certificate := mkCertificate ["old-der"] "old-key".

Definition old_config : Configuration :=
  mkConfiguration (mkGUI "admin" "$2a$10$old" [("address", "127.0.0.1:8384")])
                  [("device", "sha256:old-der")].

(** An empty configuration directory. *)
Definition empty_dir : World :=
  mkWorld "" CertAbsent ConfigAbsent None false.

(** A directory holding an identity and a configuration. *)
Definition provisioned : World :=
  mkWorld "" (CertValid old_cert) (ConfigPresent old_config) None false.

(** A directory whose certificate pair is there but cannot be parsed. *)
Definition damaged : World :=
  mkWorld "" (CertMalformed "-----BEGIN CERTIFIC") (ConfigPresent old_config)
          None false.

(** The provisioned directory on a machine whose hashing primitive is
    out of resources. *)
Definition exhausted : World :=
  mkWorld "" (CertValid old_cert) (ConfigPresent old_config)
          (Some (ErrMsg "crypto/rand: entropy source unavailable")) false.

Definition no_input : Stdin := mkStdin "" io_EOF.

Definition line_of (l : string) : Stdin :=
  mkStdin (l ++ String newline "")%string io_EOF.

(** A line of 4097 bytes, one more than the reader's buffer takes. *)
Definition long_line : string :=
  string_of_list_ascii (repeat "a"%char 4097).

Definition cli (home conf user password : string) : CLI :=
  mkCLI conf home false false false user password.

(** The simulated environment with collaborators that fail on demand:
    each error given is what the collaborator returns, whatever its
    arguments. *)
Record Faults : Type := mkFaults {
  expand_err : option error;
  ensure_err : option error;
  generate_err : option error;
  modify_err : option error;
  save_err : option error
}.

Definition no_faults : Faults := mkFaults None None None None None.

Definition faulty (f : Faults) : Env World :=
  mkEnv World
    (osutil_HideConsole env)
    (locations_GetBaseDir env)
    (locations_SetBaseDir env)
    (locations_Get env)
    (fun path w => match expand_err f with
                   | Some e => Error e
                   | None => Ok path
                   end)
    (fs_IsNotExist env)
    (fun d m w => (ensure_err f, w))
    (tls_LoadX509KeyPair env)
    (fun cf kf w => match generate_err f with
                    | Some e => (Error e, w)
                    | None => syncthing_GenerateCertificate env cf kf w
                    end)
    (protocol_NewDeviceID env)
    (config_Load env)
    (syncthing_DefaultConfig env)
    (bcrypt_GenerateFromPassword env)
    (fun w => modify_err f)
    (fun c w => match save_err f with
                | Some e => (Some e, w)
                | None => config_Save env c w
                end).

Definition read_only : Faults :=
  mkFaults None (Some (ErrMsg "mkdir /cfg: permission denied")) None None None.

Definition no_entropy : Faults :=
  mkFaults None None (Some (ErrMsg "crypto/rand: entropy source unavailable"))
           None None.

Definition refusing : Faults :=
  mkFaults None None None (Some (ErrMsg "config rejected")) None.

(** The stored configuration after user bob has set password abc123. *)
Definition saved_bob : Configuration :=
  set_GUI old_config
          (set_Password (set_User (GUI old_config) "bob") "$2a$10$abc123").


End Sim.

(** ** Proof automation for runs of Generate *)

Ltac unfold_program :=
  unfold Generate, bind, ret, fail, panic, defer_cancel, call_ExpandTilde,
    call_EnsureDir, call_SetBaseDir, call_Get, call_LoadX509KeyPair,
    call_GenerateCertificate, call_config_Load, call_DefaultConfig, index0,
    log_Println, Wrapper_Serve, Wrapper_Modify, Waiter_Wait, Wrapper_Save,
    NewWrapper, initial, updateGUIAuthentication, HashAndSetPassword in *.

(** One branch point of the run recorded in [H]: the result of a
    collaborator, or a test of the program. *)
Ltac branch H :=
  match type of H with
  | context [match ?x with _ => _ end] =>
      lazymatch x with
      | context [match _ with _ => _ end] => fail
      | _ => destruct x eqn:?; cbn in H
      end
  | context [if ?x then _ else _] =>
      lazymatch x with
      | context [if _ then _ else _] => fail
      | _ => destruct x eqn:?; cbn in H
      end
  end.

(** All the runs of Generate: [H : Generate ... = (o, s')] becomes one
    goal per path through the function, with [o] and [s'] replaced by
    what the path returns. *)
Ltac paths H :=
  unfold_program; cbn in H; repeat branch H; injection H as <- <-.

(** An event sought in an explicit trace. *)
Ltac find_event :=
  solve [cbn; repeat (first [left; reflexivity | right])].

(** A goal made of existentials, conjunctions and events to be found,
    and a disjunction of such goals. *)
Ltac from_parts :=
  repeat eexists; repeat split; try reflexivity; try find_event; try eassumption.

Ltac some_case :=
  first [ solve [from_parts] | solve [left; from_parts] | right; some_case ].

(** One branch point of a run standing in the goal. *)
Ltac branch_goal :=
  match goal with
  | |- context [match ?x with _ => _ end] =>
      lazymatch x with
      | context [match _ with _ => _ end] => fail
      | _ => destruct x eqn:?; cbn
      end
  | |- context [if ?x then _ else _] =>
      lazymatch x with
      | context [if _ then _ else _] => fail
      | _ => destruct x eqn:?; cbn
      end
  end.

(** * Properties *)

Lemma nonempty_true (x : string) : x <> "" -> nonempty x = true.
Proof.
  intro H. unfold nonempty. apply negb_true_iff. now apply String.eqb_neq.
Qed.

Lemma differs_true (x y : string) : x <> y -> differs x y = true.
Proof.
  intro H. unfold differs. apply negb_true_iff. now apply String.eqb_neq.
Qed.

Lemma differs_same (x : string) : differs x x = false.
Proof.
  unfold differs. now rewrite String.eqb_refl.
Qed.

Section UpdaterProperties.

Variable World : Type.
Variable E : Env World.

Lemma after_user_Password guiCfg guiUser (s : State World) :
  Password (fst (after_user guiCfg guiUser s)) = Password guiCfg.
Proof.
  unfold after_user. destruct (nonempty guiUser && differs (User guiCfg) guiUser);
    reflexivity.
Qed.

Lemma after_user_world guiCfg guiUser (s : State World) :
  st_world (snd (after_user guiCfg guiUser s)) = st_world s.
Proof.
  unfold after_user. destruct (nonempty guiUser && differs (User guiCfg) guiUser);
    reflexivity.
Qed.

(** C7: with a user name that is empty or the current one, and an empty
    password, updateGUIAuthentication returns the GUI record it was
    given and no error, and leaves the state, trace included, as it
    was: nothing is logged. *)
Theorem updateGUIAuthentication_noop
        (guiCfg : GUIConfiguration) (guiUser : string) (s : State World) :
  guiUser = "" \/ guiUser = User guiCfg ->
  updateGUIAuthentication E guiCfg guiUser "" s = (guiCfg, None, s).
Proof.
  intros [H | H]; subst guiUser; unfold updateGUIAuthentication.
  - reflexivity.
  - rewrite differs_same, andb_false_r. reflexivity.
Qed.

(** C10: a new password equal, as a string, to the stored hash is not
    hashed: no error is returned, the Password field is the one that
    was stored, the world is as it was and the events added to the
    trace hold no call of the hashing primitive. *)
Theorem updateGUIAuthentication_same_as_stored_hash
        (guiCfg : GUIConfiguration) (guiUser guiPassword : string)
        (s : State World) :
  guiPassword <> "" ->
  guiPassword = Password guiCfg ->
  exists guiCfg' evs,
    updateGUIAuthentication E guiCfg guiUser guiPassword s
    = (guiCfg', None,
       mkState (st_world s) (st_trace s ++ evs) (st_updateErr s))
    /\ Password guiCfg' = Password guiCfg
    /\ no_event is_Hash evs = true.
Proof.
  intros _ Heq. subst guiPassword. unfold updateGUIAuthentication.
  destruct (nonempty guiUser && differs (User guiCfg) guiUser).
  - exists (set_User guiCfg guiUser),
      [EvLog [LStr "Updated GUI authentication user name:"; LStr guiUser]].
    cbn [set_User Password]. rewrite differs_same, andb_false_r.
    repeat split.
  - exists guiCfg, []. rewrite differs_same, andb_false_r.
    rewrite app_nil_r. destruct s; repeat split.
Qed.

(** C5, amended: for a non-empty new password that differs from the
    stored Password string, the hashing primitive is called once on the
    new password.  When it yields a hash, the Password field becomes
    that hash, no error is returned and the change is logged; when it
    fails, its error is returned wrapped, the Password field keeps its
    value and no change of password is logged. *)
Theorem updateGUIAuthentication_password_change
        (guiCfg : GUIConfiguration) (guiUser guiPassword : string)
        (s : State World) :
  guiPassword <> "" ->
  guiPassword <> Password guiCfg ->
  let '(g1, s1) := after_user guiCfg guiUser s in
  let '(r, w) := bcrypt_GenerateFromPassword E guiPassword (st_world s) in
  let hashed := emit (EvHash guiPassword r) (with_world w s1) in
  updateGUIAuthentication E guiCfg guiUser guiPassword s
  = match r with
    | Ok hash =>
        (set_Password g1 hash, None,
         emit (EvLog [LStr "Updated GUI authentication password."]) hashed)
    | Error err =>
        (g1, Some (ErrWrap "failed to set GUI authentication password" err),
         hashed)
    end.
Proof.
  intros Hne Hdiff.
  pose proof (after_user_Password guiCfg guiUser s) as HP.
  pose proof (after_user_world guiCfg guiUser s) as HW.
  unfold updateGUIAuthentication. fold (after_user guiCfg guiUser s).
  destruct (after_user guiCfg guiUser s) as [g1 s1]. cbn [fst snd] in HP, HW.
  rewrite HP, nonempty_true, differs_true by congruence.
  cbn [andb]. unfold HashAndSetPassword. rewrite HW.
  destruct (bcrypt_GenerateFromPassword E guiPassword (st_world s)) as [[hash | err] w];
    reflexivity.
Qed.

End UpdaterProperties.

(** ** Reading a line *)

Lemma index_byte_line d l rest n :
  has_byte d l = false -> String.length l < n ->
  index_byte d n (l ++ String d rest) = Some (String.length l).
Proof.
  revert n. induction l as [| c l IH]; intros n Hno Hlen; cbn in *.
  - destruct n; [lia |]. cbn. now rewrite Ascii.eqb_refl.
  - destruct n; [lia |]. cbn. apply orb_false_iff in Hno as [Hc Hl].
    rewrite Hc, IH by (auto; lia). reflexivity.
Qed.

Lemma substring_prefix l rest : substring 0 (String.length l) (l ++ rest) = l.
Proof.
  induction l as [| c l IH]; cbn.
  - destruct rest; reflexivity.
  - now rewrite IH.
Qed.

Lemma length_append (a b : string) : String.length (a ++ b) = String.length a + String.length b.
Proof. induction a; cbn; auto. Qed.

Lemma get_last l c : String.get (String.length l) (l ++ String c "") = Some c.
Proof. induction l; cbn; auto. Qed.

Lemma last_byte_snoc l c d : last_byte_is d (l ++ String c "") = Ascii.eqb c d.
Proof.
  unfold last_byte_is. rewrite length_append. cbn. rewrite Nat.add_1_r.
  now rewrite get_last.
Qed.

Lemma drop_last_snoc l c : drop_last 1 (l ++ String c "") = l.
Proof.
  unfold drop_last. rewrite length_append. cbn.
  replace (String.length l + 1 - 1) with (String.length l) by lia.
  apply substring_prefix.
Qed.

Lemma ReadLine_sized_line size l rest e :
  has_byte newline l = false ->
  last_byte_is carriage_return l = false ->
  String.length l < size ->
  ReadLine_sized size (mkStdin (l ++ String newline rest) e) = (l, false, None).
Proof.
  intros Hno Hcr Hlen. unfold ReadLine_sized, ReadSlice. cbn [in_bytes].
  rewrite index_byte_line by assumption.
  replace (l ++ String newline rest)%string
    with ((l ++ String newline "") ++ rest)%string.
  2:{ clear. induction l as [| c l IH]; simpl; [reflexivity | f_equal; exact IH]. }
  replace (S (String.length l)) with (String.length (l ++ String newline "")%string).
  2:{ rewrite length_append. cbn. lia. }
  rewrite substring_prefix.
  rewrite length_append. cbn [String.length].
  replace (String.length l + 1 =? 0)%nat with false by (symmetry; apply Nat.eqb_neq; lia).
  rewrite last_byte_snoc, Ascii.eqb_refl, drop_last_snoc, Hcr, andb_false_r.
  reflexivity.
Qed.

(** A line that fits the default buffer comes back whole, without its
    newline. *)
Lemma ReadLine_line (l rest : string) (e : error) :
  has_byte newline l = false ->
  last_byte_is carriage_return l = false ->
  String.length l < defaultBufSize ->
  ReadLine (mkStdin (l ++ String newline rest) e) = (l, false, None).
Proof.
  apply ReadLine_sized_line.
Qed.

(** ** The persist protocol *)

Lemma persist_protocol_Persisted (tr : list Event) :
  persist_protocol Persisted tr = true -> no_event is_Save tr = true.
Proof.
  unfold no_event. induction tr as [| ev tr IH]; [reflexivity |].
  destruct ev; try destruct err; cbn; auto; discriminate.
Qed.

(** What the monitor's verdict means for a Save found in the trace:
    no other Save before or after it, and before it whatever the phase
    still asked for. *)
Lemma persist_protocol_sound (tr : list Event) :
  forall (p : Phase) (pre post : list Event) (cfg : Configuration)
         (err : option error),
    persist_protocol p tr = true ->
    tr = pre ++ EvSave cfg err :: post ->
    no_event is_Save pre = true
    /\ no_event is_Save post = true
    /\ match p with
       | Idle => exists a b c, pre = a ++ EvModify None :: b ++ EvWait :: c
       | Queued => exists b c, pre = b ++ EvWait :: c
       | Applied => True
       | Persisted => False
       end.
Proof.
  induction tr as [| ev tr IH]; intros p pre post cfg err Hm Heq.
  - destruct pre; discriminate.
  - destruct pre as [| x pre].
    + cbn in Heq. injection Heq as -> ->. cbn in Hm.
      destruct p; try discriminate.
      split; [reflexivity |]. split; [| exact I].
      now apply persist_protocol_Persisted.
    + cbn in Heq. injection Heq as <- Heq.
      assert (Hstep : exists q, persist_protocol q tr = true
                /\ (q = Persisted
                    \/ (is_Save ev = false
                        /\ (q = p
                            \/ (p = Idle /\ q = Queued /\ ev = EvModify None)
                            \/ (p = Queued /\ q = Applied /\ ev = EvWait))))).
      { destruct ev; try destruct err0; cbn in Hm;
          try (exists p; now auto);
          destruct p; try discriminate;
          eexists; (split; [eassumption |]); auto 8. }
      destruct Hstep as (q & Hq & Hcase).
      destruct (IH q pre post cfg err Hq Heq) as (Hpre & Hpost & Hphase).
      destruct Hcase as [-> | (Hns & Hcase)]; [contradiction |].
      split; [| split; [exact Hpost |]].
      * unfold no_event in *. cbn. rewrite Hns. exact Hpre.
      * destruct Hcase as [-> | [(-> & -> & ->) | (-> & -> & ->)]].
        -- destruct p; auto.
           ++ destruct Hphase as (a & b & c & ->). now exists (ev :: a), b, c.
           ++ destruct Hphase as (b & c & ->). now exists (ev :: b), c.
        -- destruct Hphase as (b & c & ->). now exists [], b, c.
        -- now exists [], pre.
Qed.

(** ** Generate *)

Section GenerateProperties.

Variable World : Type.
Variable E : Env World.

Variables (confDir guiUser guiPassword : string).
Variables (noDefaultFolder skipPortProbing : bool).

(** Any failure to load the pair, whatever its cause, is answered by a
    call of the certificate-generation primitive at the same two
    locations. *)
Lemma Generate_load_error_generates
      (w : World) (o : Outcome unit) (s' : State World)
      (certFile keyFile : string) (e : error) :
  Generate E confDir guiUser guiPassword noDefaultFolder skipPortProbing
           (initial w) = (o, s') ->
  In (EvLoadX509KeyPair certFile keyFile (Error e)) (st_trace s') ->
  exists r, In (EvGenerateCertificate certFile keyFile r) (st_trace s').
Proof.
  intros H Hin. paths H; cbn in Hin;
    intuition (try discriminate);
    match goal with
    | Heq : EvLoadX509KeyPair _ _ _ = EvLoadX509KeyPair _ _ _ |- _ =>
        injection Heq as <- <- <-
    end;
    eexists; find_event.
Qed.

(** C2: in a run of Generate whose load of the certificate pair
    succeeds, the warning is logged, the trace holds no call of the
    certificate-generation primitive, and the key material in the world
    at the end is the key material of the world at the start. *)
Theorem Generate_existing_key_untouched
        (K : Type) (V : KeyView E K)
        (w : World) (o : Outcome unit) (s' : State World)
        (certFile keyFile : string) (cert : Certificate) :
  Generate E confDir guiUser guiPassword noDefaultFolder skipPortProbing
           (initial w) = (o, s') ->
  In (EvLoadX509KeyPair certFile keyFile (Ok cert)) (st_trace s') ->
  In (EvLog [LStr "WARNING: Key exists; will not overwrite."]) (st_trace s')
  /\ no_event is_GenerateCertificate (st_trace s') = true
  /\ key_material V (st_world s') = key_material V w.
Proof.
  intros H Hin. paths H; cbn in Hin; intuition (try discriminate);
    try find_event; try reflexivity; cbn;
    repeat match goal with
      | Heq : syncthing_EnsureDir E ?d ?m ?x = (_, ?y) |- _ =>
          let F := fresh "F" in
          pose proof (kv_EnsureDir E K V d m x) as F;
          rewrite Heq in F; cbn in F; clear Heq
      | Heq : syncthing_DefaultConfig E ?f ?i ?a ?b ?x = (_, ?y) |- _ =>
          let F := fresh "F" in
          pose proof (kv_DefaultConfig E K V f i a b x) as F;
          rewrite Heq in F; cbn in F; clear Heq
      | Heq : bcrypt_GenerateFromPassword E ?p ?x = (_, ?y) |- _ =>
          let F := fresh "F" in
          pose proof (kv_bcrypt E K V p x) as F;
          rewrite Heq in F; cbn in F; clear Heq
      | Heq : config_Save E ?c ?x = (_, ?y) |- _ =>
          let F := fresh "F" in
          pose proof (kv_Save E K V c x) as F;
          rewrite Heq in F; cbn in F; clear Heq
      end;
    rewrite ?kv_SetBaseDir in *; congruence.
Qed.

(** C3: in a run of Generate in which the hashing primitive fails
    inside the mutation, Generate returns the error of
    updateGUIAuthentication, which wraps the hashing error, and the
    trace holds no call of cfg.Save. *)
Theorem Generate_hashing_error_not_persisted
        (w : World) (o : Outcome unit) (s' : State World)
        (password : string) (e : error) :
  Generate E confDir guiUser guiPassword noDefaultFolder skipPortProbing
           (initial w) = (o, s') ->
  In (EvHash password (Error e)) (st_trace s') ->
  o = Fail (ErrWrap "failed to set GUI authentication password" e)
  /\ no_event is_Save (st_trace s') = true.
Proof.
  intros H Hin. paths H; cbn in Hin; intuition (try discriminate);
    match goal with
    | Heq : EvHash _ _ = EvHash _ _ |- _ => injection Heq as <- <-
    end; reflexivity.
Qed.

(** Every run of Generate follows the persist protocol: the mutation is
    queued, then waited for, and only then may one Save occur. *)
Lemma Generate_persist_protocol
      (w : World) (o : Outcome unit) (s' : State World) :
  Generate E confDir guiUser guiPassword noDefaultFolder skipPortProbing
           (initial w) = (o, s') ->
  persist_protocol Idle (st_trace s') = true.
Proof.
  intro H. paths H; reflexivity.
Qed.

(** C4: wherever a call of cfg.Save stands in the trace of a run of
    Generate, the accepted Modify and after it the return from Wait
    stand before it, and it is the only Save of the run: none before
    it, so none while the mutation was applied, and none after it. *)
Theorem Generate_save_only_after_wait
        (w : World) (o : Outcome unit) (s' : State World)
        (pre post : list Event) (cfg : Configuration) (err : option error) :
  Generate E confDir guiUser guiPassword noDefaultFolder skipPortProbing
           (initial w) = (o, s') ->
  st_trace s' = pre ++ EvSave cfg err :: post ->
  (exists a b c, pre = a ++ EvModify None :: b ++ EvWait :: c)
  /\ no_event is_Save pre = true
  /\ no_event is_Save post = true.
Proof.
  intros H Heq.
  destruct (persist_protocol_sound (st_trace s') Idle pre post cfg err
              (Generate_persist_protocol w o s' H) Heq) as (Hpre & Hpost & Hord).
  auto.
Qed.

(** C6: in a run of Generate that reaches the load of the configuration
    and finds it failing, the identifier passed to the load is derived
    from the first certificate of the pair loaded or generated; on a
    not-exist error the default configuration is requested for the same
    file and identifier with the two switches as given, and its failure
    is returned under the label of config creation; on any other error
    Generate returns it under the label of the load and requests no
    default configuration. *)
Theorem Generate_config_bootstrap
        (w : World) (o : Outcome unit) (s' : State World)
        (cfgFile : string) (myID : DeviceID) (e : error) :
  Generate E confDir guiUser guiPassword noDefaultFolder skipPortProbing
           (initial w) = (o, s') ->
  In (EvConfigLoad cfgFile myID (Error e)) (st_trace s') ->
  (exists certFile keyFile cert raw rest,
      (In (EvLoadX509KeyPair certFile keyFile (Ok cert)) (st_trace s')
       \/ In (EvGenerateCertificate certFile keyFile (Ok cert)) (st_trace s'))
      /\ cert_Certificate cert = raw :: rest
      /\ myID = protocol_NewDeviceID E raw)
  /\ (fs_IsNotExist E e = true ->
      exists r,
        In (EvDefaultConfig cfgFile myID noDefaultFolder skipPortProbing r)
           (st_trace s')
        /\ forall e', r = Error e' -> o = Fail (ErrWrap "create config" e'))
  /\ (fs_IsNotExist E e = false ->
      o = Fail (ErrWrap "load config" e)
      /\ no_event is_DefaultConfig (st_trace s') = true).
Proof.
  intros H Hin. paths H; cbn in Hin; intuition (try discriminate);
    match goal with
    | Heq : EvConfigLoad _ _ _ = EvConfigLoad _ _ _ |- _ =>
        injection Heq as <- <- <-
    end;
    try congruence;
    try (eexists _, _, _, _, _; split;
         [ first [left; find_event | right; find_event]
         | split; [eassumption | reflexivity] ]);
    try (eexists; split; [find_event | intros ? [=]; subst; reflexivity]);
    try reflexivity.
Qed.

End GenerateProperties.

(** ** CLI.Run *)

Section RunProperties.

Variable World : Type.
Variable E : Env World.

(** C9: with both the home directory and the configuration directory
    given, Run returns the error of the mutually exclusive options and
    leaves the CLI as it was; log.SetFlags, and HideConsole when asked
    for, are all it has done: standard input is not read and Generate
    is not entered. *)
Theorem Run_home_and_config_conflict (c : CLI) (stdin : Stdin) (s : State World) :
  HomeDir c <> "" ->
  ConfDir c <> "" ->
  exists s',
    Run E c stdin s
    = (c, Fail (ErrMsg "--home must not be used together with --config"), s')
    /\ st_trace s'
       = st_trace s ++ EvLogSetFlags 0
                    :: (if HideConsole c then [EvHideConsole] else [])
    /\ st_world s'
       = (if HideConsole c then osutil_HideConsole E (st_world s)
          else st_world s).
Proof.
  intros Hh Hc. unfold Run.
  rewrite (nonempty_true _ Hh), (nonempty_true _ Hc). cbn [andb].
  eexists. split; [reflexivity |].
  destruct (HideConsole c); cbn.
  - now rewrite <- app_assoc.
  - auto.
Qed.

End RunProperties.

Section RunPassword.

Variable World : Type.
Variable E : Env World.

(** How Run settles the password when the directory options do not
    conflict: an argument other than the sentinel goes to Generate as it
    is and standard input is not read; with the sentinel, ReadLine is
    called once and what it returns is the password; when ReadLine
    fails, Run returns its error wrapped and Generate is not entered. *)
Lemma Run_resolves_password (c : CLI) (stdin : Stdin) (s : State World) :
  nonempty (HomeDir c) && nonempty (ConfDir c) = false ->
  let s0 := Run_prelude E c s in
  let c0 := Run_directory E c (st_world s0) in
  (GUIPassword c <> "-" -> Run E c stdin s = Run_generate E c0 s0)
  /\ (GUIPassword c = "-" ->
      forall line isPrefix,
        ReadLine stdin = (line, isPrefix, None) ->
        Run E c stdin s
        = Run_generate E (set_GUIPassword c0 line)
                       (emit (EvReadLine line isPrefix None) s0))
  /\ (GUIPassword c = "-" ->
      forall line isPrefix err,
        ReadLine stdin = (line, isPrefix, Some err) ->
        Run E c stdin s
        = (c0, Fail (ErrWrap "failed reading GUI password" err),
           emit (EvReadLine line isPrefix (Some err)) s0)).
Proof.
  intros Hok s0 c0.
  assert (Hpw : GUIPassword c0 = GUIPassword c).
  { unfold c0, Run_directory.
    destruct (nonempty (HomeDir c)); cbn;
      match goal with |- context [if ?b then _ else _] => destruct b end;
      reflexivity. }
  unfold Run. rewrite Hok. fold (Run_prelude E c s). fold s0.
  fold (Run_directory E c (st_world s0)). fold c0. rewrite Hpw.
  repeat split.
  - intro Hne. apply String.eqb_neq in Hne. rewrite Hne. reflexivity.
  - intros -> line isPrefix Hrl. cbn. rewrite Hrl. reflexivity.
  - intros -> line isPrefix err Hrl. cbn. rewrite Hrl. reflexivity.
Qed.

End RunPassword.

(** * The program on the simulated environment *)

(** ** Runs that show a divergence *)

(** C1: the certificate pair is on disk but cannot be parsed, and the
    load fails with an error that is not a not-exist error.  Generate
    does not stop there: it calls the certificate-generation primitive
    on the same two files, returns no error, and the pair that was on
    disk has been replaced by a fresh one. *)
Theorem Generate_unparsable_pair_is_regenerated :
  let run := Generate Sim.env "/cfg" "" "" false false (initial Sim.damaged) in
  let load_error :=
    ErrMsg "tls: failed to find any PEM data in certificate input" in
  fs_IsNotExist Sim.env load_error = false
  /\ In (EvLoadX509KeyPair "/cfg/cert.pem" "/cfg/key.pem" (Error load_error))
        (st_trace (snd run))
  /\ In (EvGenerateCertificate "/cfg/cert.pem" "/cfg/key.pem" (Ok Sim.fresh_cert))
        (st_trace (snd run))
  /\ fst run = Val tt
  /\ Sim.certs (st_world (snd run)) = Sim.CertValid Sim.fresh_cert.
Proof.
  vm_compute. repeat split; auto 10.
Qed.

(** C5, the claim as stated fails: the new password is non-empty and
    differs from the stored one, yet the hashing primitive fails; the
    Password field keeps its value, an error is returned and no change
    is logged. *)
Lemma updateGUIAuthentication_hashing_failure :
  let guiCfg := GUI Sim.old_config in
  let e := ErrMsg "crypto/rand: entropy source unavailable" in
  "abc123" <> ""
  /\ "abc123" <> Password guiCfg
  /\ updateGUIAuthentication Sim.env guiCfg "" "abc123" (initial Sim.exhausted)
     = (guiCfg,
        Some (ErrWrap "failed to set GUI authentication password" e),
        mkState Sim.exhausted [EvHash "abc123" (Error e)] None).
Proof.
  repeat split; try discriminate.
Qed.

(** C8: the sentinel with a line of 4097 bytes on standard input.  The
    single ReadLine call returns the first 4096 bytes with isPrefix
    set, which Run discards: no error is returned and the password that
    reaches Generate, and is hashed there, is the truncated one. *)
Theorem Run_long_line_truncated :
  let run := Run Sim.env (Sim.cli "" "/cfg" "" "-") (Sim.line_of Sim.long_line)
                 (initial Sim.provisioned) in
  let password := GUIPassword (fst (fst run)) in
  snd (fst run) = Val tt
  /\ String.length Sim.long_line = 4097
  /\ String.length password = 4096
  /\ password = substring 0 4096 Sim.long_line
  /\ In (EvHash password (Ok ("$2a$10$" ++ password)%string)) (st_trace (snd run)).
Proof.
  vm_compute. repeat split; auto 20.
Qed.

(** The sentinel with the line of the spec's example: the password that
    reaches the hashing primitive is the line without its newline. *)
Example Run_stdin_sentinel_secretpass :
  let run := Run Sim.env (Sim.cli "" "/cfg" "" "-") (Sim.line_of "secretpass")
                 (initial Sim.provisioned) in
  snd (fst run) = Val tt
  /\ GUIPassword (fst (fst run)) = "secretpass"
  /\ In (EvHash "secretpass" (Ok "$2a$10$secretpass")) (st_trace (snd run)).
Proof.
  vm_compute. repeat split; auto 20.
Qed.

(** Standard input at its end: ReadLine fails and Run returns the
    error. *)
Example Run_stdin_sentinel_eof :
  snd (fst (Run Sim.env (Sim.cli "" "/cfg" "" "-") Sim.no_input
                (initial Sim.provisioned)))
  = Fail (ErrWrap "failed reading GUI password" io_EOF).
Proof.
  reflexivity.
Qed.

(** Three bytes arrive and then the read fails: ReadLine hands the
    bytes back with no error, and they become the password. *)
Example Run_read_error_after_bytes_dropped :
  let run := Run Sim.env (Sim.cli "" "/cfg" "" "-")
                 (mkStdin "sec" (ErrMsg "read /dev/stdin: input/output error"))
                 (initial Sim.provisioned) in
  snd (fst run) = Val tt /\ GUIPassword (fst (fst run)) = "sec".
Proof.
  vm_compute. split; reflexivity.
Qed.

(** ** Instances of the theorems *)

Lemma updateGUIAuthentication_noop_witness :
  updateGUIAuthentication Sim.env (GUI Sim.old_config) "admin" ""
                          (initial Sim.provisioned)
  = (GUI Sim.old_config, None, initial Sim.provisioned).
Proof.
  apply (updateGUIAuthentication_noop Sim.World Sim.env (GUI Sim.old_config)
           "admin" (initial Sim.provisioned)).
  right. reflexivity.
Defined.

Lemma updateGUIAuthentication_same_as_stored_hash_witness :
  exists guiCfg' evs,
    updateGUIAuthentication Sim.env (GUI Sim.old_config) "bob" "$2a$10$old"
                            (initial Sim.provisioned)
    = (guiCfg', None, mkState Sim.provisioned ([] ++ evs) None)
    /\ Password guiCfg' = "$2a$10$old"
    /\ no_event is_Hash evs = true.
Proof.
  apply (updateGUIAuthentication_same_as_stored_hash Sim.World Sim.env
           (GUI Sim.old_config) "bob" "$2a$10$old" (initial Sim.provisioned)).
  - discriminate.
  - reflexivity.
Defined.

Lemma updateGUIAuthentication_password_change_witness :
  updateGUIAuthentication Sim.env (GUI Sim.old_config) "" "abc123"
                          (initial Sim.provisioned)
  = (set_Password (GUI Sim.old_config) "$2a$10$abc123", None,
     mkState Sim.provisioned
             [EvHash "abc123" (Ok "$2a$10$abc123");
              EvLog [LStr "Updated GUI authentication password."]] None).
Proof.
  apply (updateGUIAuthentication_password_change Sim.World Sim.env
           (GUI Sim.old_config) "" "abc123" (initial Sim.provisioned)).
  - discriminate.
  - discriminate.
Defined.

Lemma Run_home_and_config_conflict_witness :
  exists s',
    Run Sim.env (Sim.cli "/home" "/cfg" "bob" "-") (Sim.line_of "secretpass")
        (initial Sim.provisioned)
    = (Sim.cli "/home" "/cfg" "bob" "-",
       Fail (ErrMsg "--home must not be used together with --config"), s')
    /\ st_trace s' = [EvLogSetFlags 0]
    /\ st_world s' = Sim.provisioned.
Proof.
  apply (Run_home_and_config_conflict Sim.World Sim.env
           (Sim.cli "/home" "/cfg" "bob" "-") (Sim.line_of "secretpass")
           (initial Sim.provisioned)).
  - discriminate.
  - discriminate.
Defined.

Lemma Generate_existing_key_untouched_witness :
  let s' := snd (Generate Sim.env "/cfg" "bob" "abc123" false false
                          (initial Sim.provisioned)) in
  In (EvLog [LStr "WARNING: Key exists; will not overwrite."]) (st_trace s')
  /\ no_event is_GenerateCertificate (st_trace s') = true
  /\ key_material Sim.keys (st_world s') = Sim.CertValid Sim.old_cert.
Proof.
  apply (Generate_existing_key_untouched Sim.World Sim.env
           "/cfg" "bob" "abc123" false false Sim.CertStore Sim.keys
           Sim.provisioned
           (fst (Generate Sim.env "/cfg" "bob" "abc123" false false
                          (initial Sim.provisioned)))
           (snd (Generate Sim.env "/cfg" "bob" "abc123" false false
                          (initial Sim.provisioned)))
           "/cfg/cert.pem" "/cfg/key.pem" Sim.old_cert).
  - vm_compute. reflexivity.
  - vm_compute. do 3 right. left. reflexivity.
Defined.

Lemma Generate_hashing_error_not_persisted_witness :
  let run := Generate Sim.env "/cfg" "bob" "abc123" false false
                      (initial Sim.exhausted) in
  fst run
  = Fail (ErrWrap "failed to set GUI authentication password"
                  (ErrMsg "crypto/rand: entropy source unavailable"))
  /\ no_event is_Save (st_trace (snd run)) = true.
Proof.
  apply (Generate_hashing_error_not_persisted Sim.World Sim.env
           "/cfg" "bob" "abc123" false false Sim.exhausted
           (fst (Generate Sim.env "/cfg" "bob" "abc123" false false
                          (initial Sim.exhausted)))
           (snd (Generate Sim.env "/cfg" "bob" "abc123" false false
                          (initial Sim.exhausted)))
           "abc123" (ErrMsg "crypto/rand: entropy source unavailable")).
  - vm_compute. reflexivity.
  - vm_compute. do 10 right. left. reflexivity.
Defined.

Lemma Generate_save_only_after_wait_witness :
  let tr := st_trace (snd (Generate Sim.env "/cfg" "bob" "" false false
                                    (initial Sim.provisioned))) in
  (exists a b c, firstn 11 tr = a ++ EvModify None :: b ++ EvWait :: c)
  /\ no_event is_Save (firstn 11 tr) = true
  /\ no_event is_Save (skipn 12 tr) = true.
Proof.
  apply (Generate_save_only_after_wait Sim.World Sim.env
           "/cfg" "bob" "" false false Sim.provisioned
           (fst (Generate Sim.env "/cfg" "bob" "" false false
                          (initial Sim.provisioned)))
           (snd (Generate Sim.env "/cfg" "bob" "" false false
                          (initial Sim.provisioned)))
           _ _
           (set_GUI Sim.old_config (set_User (GUI Sim.old_config) "bob"))
           None).
  - vm_compute. reflexivity.
  - vm_compute. reflexivity.
Defined.

Lemma Generate_config_bootstrap_witness :
  let run := Generate Sim.env "/cfg" "" "" true false (initial Sim.empty_dir) in
  let myID := mkDeviceID "sha256:fresh-der" in
  (exists certFile keyFile cert raw rest,
      (In (EvLoadX509KeyPair certFile keyFile (Ok cert)) (st_trace (snd run))
       \/ In (EvGenerateCertificate certFile keyFile (Ok cert))
             (st_trace (snd run)))
      /\ cert_Certificate cert = raw :: rest
      /\ myID = protocol_NewDeviceID Sim.env raw)
  /\ (fs_IsNotExist Sim.env Sim.ErrNotExist = true ->
      exists r,
        In (EvDefaultConfig "/cfg/config.xml" myID true false r)
           (st_trace (snd run))
        /\ forall e', r = Error e' -> fst run = Fail (ErrWrap "create config" e'))
  /\ (fs_IsNotExist Sim.env Sim.ErrNotExist = false ->
      fst run = Fail (ErrWrap "load config" Sim.ErrNotExist)
      /\ no_event is_DefaultConfig (st_trace (snd run)) = true).
Proof.
  apply (Generate_config_bootstrap Sim.World Sim.env "/cfg" "" "" true false
           Sim.empty_dir
           (fst (Generate Sim.env "/cfg" "" "" true false (initial Sim.empty_dir)))
           (snd (Generate Sim.env "/cfg" "" "" true false (initial Sim.empty_dir)))
           "/cfg/config.xml" (mkDeviceID "sha256:fresh-der") Sim.ErrNotExist).
  - vm_compute. reflexivity.
  - vm_compute. do 6 right. left. reflexivity.
Defined.

(** * Further properties of the three functions *)

(** ** updateGUIAuthentication *)

Lemma nonempty_false (x : string) : nonempty x = false -> x = "".
Proof.
  unfold nonempty. intro H. apply negb_false_iff in H. now apply String.eqb_eq.
Qed.

Lemma differs_false (x y : string) : differs x y = false -> x = y.
Proof.
  unfold differs. intro H. apply negb_false_iff in H. now apply String.eqb_eq.
Qed.

Lemma user_choice (g : GUIConfiguration) (u : string) :
  (if nonempty u && differs (User g) u then u else User g)
  = (if nonempty u then u else User g).
Proof.
  destruct (nonempty u); cbn [andb]; [| reflexivity].
  destruct (differs (User g) u) eqn:Hd; [reflexivity |].
  unfold differs in Hd. apply negb_false_iff in Hd. now apply String.eqb_eq.
Qed.

Section UpdaterFrame.

Variable World : Type.
Variable E : Env World.

(** The user name a call leaves in the record, whatever becomes of the
    password. *)
Lemma updateGUIAuthentication_User
      (guiCfg : GUIConfiguration) (guiUser guiPassword : string)
      (s : State World) :
  User (fst (fst (updateGUIAuthentication E guiCfg guiUser guiPassword s)))
  = (if nonempty guiUser then guiUser else User guiCfg).
Proof.
  rewrite <- user_choice.
  unfold updateGUIAuthentication, HashAndSetPassword.
  destruct (nonempty guiUser && differs (User guiCfg) guiUser);
    cbn [set_User Password];
    (destruct (nonempty guiPassword && differs (Password guiCfg) guiPassword);
     [| reflexivity]);
    destruct (bcrypt_GenerateFromPassword E guiPassword _) as [[h | e] w];
    reflexivity.
Qed.

(** X1: whatever its arguments and whether or not it fails,
    updateGUIAuthentication leaves every field of the GUI record other
    than User and Password as it was; the User field afterwards is the
    given user name when one is given, the old one otherwise; and the
    Password field is the old one or what the hashing primitive
    returned for the given password. *)
Theorem updateGUIAuthentication_frame
        (guiCfg : GUIConfiguration) (guiUser guiPassword : string)
        (s : State World) :
  let guiCfg' := fst (fst (updateGUIAuthentication E guiCfg guiUser guiPassword s)) in
  gui_rest guiCfg' = gui_rest guiCfg
  /\ User guiCfg' = (if nonempty guiUser then guiUser else User guiCfg)
  /\ (Password guiCfg' = Password guiCfg
      \/ exists w,
           bcrypt_GenerateFromPassword E guiPassword (st_world s)
           = (Ok (Password guiCfg'), w)).
Proof.
  cbv zeta. split; [| split; [apply updateGUIAuthentication_User |]];
    unfold updateGUIAuthentication, HashAndSetPassword;
    destruct (nonempty guiUser && differs (User guiCfg) guiUser);
    cbn [set_User Password gui_rest st_world emit with_world];
    (destruct (nonempty guiPassword && differs (Password guiCfg) guiPassword);
     [| cbn; auto]);
    destruct (bcrypt_GenerateFromPassword E guiPassword (st_world s))
      as [[h | e] w]; cbn; eauto.
Qed.

(** X2: once a call has been made with a user name, a further call with
    the same user name and no password changes nothing and logs
    nothing, from whatever state it is made. *)
Theorem updateGUIAuthentication_user_settled
        (guiCfg : GUIConfiguration) (guiUser guiPassword : string)
        (s t : State World) :
  let guiCfg' := fst (fst (updateGUIAuthentication E guiCfg guiUser guiPassword s)) in
  updateGUIAuthentication E guiCfg' guiUser "" t = (guiCfg', None, t).
Proof.
  intro guiCfg'.
  pose proof (updateGUIAuthentication_User guiCfg guiUser guiPassword s) as HU.
  fold guiCfg' in HU.
  unfold updateGUIAuthentication at 1. cbn [nonempty String.eqb negb andb].
  destruct (nonempty guiUser) eqn:Hu; cbn [andb]; [| reflexivity].
  rewrite HU, differs_same. reflexivity.
Qed.

(** X3: the password is hashed again on every call: after a call that
    set a non-empty password, a second call with the same arguments
    calls the hashing primitive once more (and logs the change if it
    succeeds), provided the stored hash is not the password itself. *)
Theorem updateGUIAuthentication_rehashes_on_repeat
        (guiCfg guiCfg' : GUIConfiguration) (guiUser guiPassword : string)
        (s s' t : State World) :
  guiPassword <> "" ->
  updateGUIAuthentication E guiCfg guiUser guiPassword s = (guiCfg', None, s') ->
  Password guiCfg' <> guiPassword ->
  exists r,
    st_trace (snd (updateGUIAuthentication E guiCfg' guiUser guiPassword t))
    = st_trace t ++ EvHash guiPassword r
                 :: match r with
                    | Ok _ => [EvLog [LStr "Updated GUI authentication password."]]
                    | Error _ => []
                    end.
Proof.
  intros Hne Hfirst Hdiff.
  pose proof (updateGUIAuthentication_User guiCfg guiUser guiPassword s) as HU.
  rewrite Hfirst in HU. cbn [fst] in HU.
  unfold updateGUIAuthentication, HashAndSetPassword.
  assert (Hnu : nonempty guiUser && differs (User guiCfg') guiUser = false).
  { destruct (nonempty guiUser); [| reflexivity].
    rewrite HU, differs_same. reflexivity. }
  rewrite Hnu, (nonempty_true _ Hne), (differs_true _ _ Hdiff). cbn [andb].
  destruct (bcrypt_GenerateFromPassword E guiPassword (st_world t)) as [[h | e] w].
  - exists (Ok h). cbn. now rewrite <- app_assoc.
  - exists (Error e). reflexivity.
Qed.

End UpdaterFrame.

(** ** Generate *)

Section GenerateOutcomes.

Variable World : Type.
Variable E : Env World.
Variables (confDir guiUser guiPassword : string).
Variables (noDefaultFolder skipPortProbing : bool).

(** X4: every error Generate returns comes from a collaborator that
    failed in the run: the error of ExpandTilde or EnsureDir as it is,
    and otherwise the collaborator's error under the label of its
    stage. *)
Theorem Generate_errors_are_labelled
        (w : World) (o : Outcome unit) (s' : State World) (err : error) :
  Generate E confDir guiUser guiPassword noDefaultFolder skipPortProbing
           (initial w) = (o, s') ->
  o = Fail err ->
  (exists p, In (EvExpandTilde p (Error err)) (st_trace s'))
  \/ (exists d m, In (EvEnsureDir d m (Some err)) (st_trace s'))
  \/ (exists cf kf e, err = ErrWrap "create certificate" e
        /\ In (EvGenerateCertificate cf kf (Error e)) (st_trace s'))
  \/ (exists f i e, err = ErrWrap "load config" e
        /\ In (EvConfigLoad f i (Error e)) (st_trace s')
        /\ fs_IsNotExist E e = false)
  \/ (exists f i a b e, err = ErrWrap "create config" e
        /\ In (EvDefaultConfig f i a b (Error e)) (st_trace s'))
  \/ (exists e, err = ErrWrap "modify config" e
        /\ In (EvModify (Some e)) (st_trace s'))
  \/ (exists e, err = ErrWrap "failed to set GUI authentication password" e
        /\ In (EvHash guiPassword (Error e)) (st_trace s'))
  \/ (exists cfg e, err = ErrWrap "save config" e
        /\ In (EvSave cfg (Some e)) (st_trace s')).
Proof.
  intros H Ho. paths H; try discriminate Ho; injection Ho as <-; cbn [st_trace].
  all: some_case.
Qed.

(** X5: Generate returns nil only after a Save that returned nil, and
    a Save in the run decides the result: nil when it returned nil, its
    error under the label of the save otherwise. *)
Theorem Generate_outcome_of_save
        (w : World) (o : Outcome unit) (s' : State World)
        (cfg : Configuration) (err : option error) :
  Generate E confDir guiUser guiPassword noDefaultFolder skipPortProbing
           (initial w) = (o, s') ->
  (o = Val tt -> exists c, In (EvSave c None) (st_trace s'))
  /\ (In (EvSave cfg err) (st_trace s') ->
      o = match err with
          | None => Val tt
          | Some e => Fail (ErrWrap "save config" e)
          end).
Proof.
  intros H. paths H; cbn [st_trace]; (split; [intro Ho | intro Hin]);
    try discriminate Ho; try (eexists; find_event);
    cbn in Hin; intuition (try discriminate);
    match goal with
    | Heq : EvSave _ _ = EvSave _ _ |- _ => injection Heq as <- <-
    end; reflexivity.
Qed.

(** X6: the configuration handed to Save is the one that was loaded,
    or the default one that was created, with nothing changed but the
    GUI user name and password: the user name is the given one when one
    is given, and the password is the loaded one, with no hashing call
    in the run, or the hash returned for the given password. *)
Theorem Generate_saves_loaded_configuration
        (w : World) (o : Outcome unit) (s' : State World)
        (cfg : Configuration) (err : option error) :
  Generate E confDir guiUser guiPassword noDefaultFolder skipPortProbing
           (initial w) = (o, s') ->
  In (EvSave cfg err) (st_trace s') ->
  exists cfg0,
    ((exists f i, In (EvConfigLoad f i (Ok cfg0)) (st_trace s'))
     \/ (exists f i a b, In (EvDefaultConfig f i a b (Ok cfg0)) (st_trace s')))
    /\ cfg_rest cfg = cfg_rest cfg0
    /\ gui_rest (GUI cfg) = gui_rest (GUI cfg0)
    /\ User (GUI cfg) = (if nonempty guiUser then guiUser else User (GUI cfg0))
    /\ (Password (GUI cfg) = Password (GUI cfg0)
          /\ no_event is_Hash (st_trace s') = true
        \/ exists h, In (EvHash guiPassword (Ok h)) (st_trace s')
                     /\ Password (GUI cfg) = h).
Proof.
  intros H Hin. paths H; cbn in Hin; intuition (try discriminate);
    match goal with
    | Heq : EvSave _ _ = EvSave _ _ |- _ => injection Heq as <- <-
    end;
    cbn [st_trace];
    eexists; (split; [some_case |]);
    cbn [set_GUI set_User set_Password GUI User Password gui_rest cfg_rest];
    (split; [reflexivity |]); (split; [reflexivity |]);
    (split;
     [ match goal with
       | Hb : nonempty guiUser && differs (User ?g) guiUser = _ |- _ =>
           rewrite <- (user_choice g guiUser), Hb; reflexivity
       end
     | first [ left; split; reflexivity
             | right; eexists; split; [find_event | reflexivity] ] ]).
Qed.

(** X8: once the serving loop has been started the cancellation is the
    last thing Generate does, on every return path, and it happens
    once; a run that never starts the loop never cancels. *)
Theorem Generate_cancel_after_serve
        (w : World) (o : Outcome unit) (s' : State World) :
  Generate E confDir guiUser guiPassword noDefaultFolder skipPortProbing
           (initial w) = (o, s') ->
  (In EvServe (st_trace s') ->
   exists tr0, st_trace s' = tr0 ++ [EvCancel]
               /\ no_event is_Cancel tr0 = true)
  /\ (~ In EvServe (st_trace s') -> no_event is_Cancel (st_trace s') = true).
Proof.
  intros H. paths H; cbn [st_trace]; (split; [intro Hin | intro Hn]);
    try reflexivity;
    try (exfalso; apply Hn; find_event);
    try (cbn in Hin; intuition discriminate);
    match goal with
    | |- exists tr0, ?tr = _ /\ _ => exists (removelast tr); split; reflexivity
    end.
Qed.


(** X10: the certificate pair is looked for only after the directory
    has been prepared: the run starts with the expansion of confDir,
    the creation of the expanded directory with mode 0700 and its
    installation as base directory, and the two files loaded are the
    certificate and key locations under that base directory. *)
Theorem Generate_directory_prepared
        (w : World) (o : Outcome unit) (s' : State World)
        (cf kf : string) (r : Result Certificate) :
  Generate E confDir guiUser guiPassword noDefaultFolder skipPortProbing
           (initial w) = (o, s') ->
  In (EvLoadX509KeyPair cf kf r) (st_trace s') ->
  exists dir w0,
    fs_ExpandTilde E confDir w = Ok dir
    /\ syncthing_EnsureDir E dir mode_0700 w = (None, w0)
    /\ firstn 3 (st_trace s')
       = [EvExpandTilde confDir (Ok dir); EvEnsureDir dir mode_0700 None;
          EvSetBaseDir dir]
    /\ cf = locations_Get E CertFile (locations_SetBaseDir E dir w0)
    /\ kf = locations_Get E KeyFile (locations_SetBaseDir E dir w0)
    /\ r = tls_LoadX509KeyPair E cf kf (locations_SetBaseDir E dir w0).
Proof.
  intros H Hin. paths H; cbn in Hin; intuition (try discriminate);
    match goal with
    | Heq : EvLoadX509KeyPair _ _ _ = EvLoadX509KeyPair _ _ _ |- _ =>
        injection Heq as <- <- <-
    end;
    subst; eexists _, _; repeat split; try eassumption; try reflexivity;
    auto.
Qed.

(** X11: when ExpandTilde or EnsureDir fails, Generate returns that
    error as it is, and the base directory is not set and no
    certificate pair is loaded or generated. *)
Theorem Generate_directory_failure
        (w : World) (o : Outcome unit) (s' : State World)
        (p d : string) (m : nat) (e : error) :
  Generate E confDir guiUser guiPassword noDefaultFolder skipPortProbing
           (initial w) = (o, s') ->
  In (EvExpandTilde p (Error e)) (st_trace s')
  \/ In (EvEnsureDir d m (Some e)) (st_trace s') ->
  o = Fail e
  /\ no_event is_SetBaseDir (st_trace s') = true
  /\ no_event is_LoadX509KeyPair (st_trace s') = true
  /\ no_event is_GenerateCertificate (st_trace s') = true.
Proof.
  intros H Hin. paths H; cbn in Hin; intuition (try discriminate);
    match goal with
    | Heq : EvExpandTilde _ _ = EvExpandTilde _ _ |- _ => injection Heq as <- <-
    | Heq : EvEnsureDir _ _ _ = EvEnsureDir _ _ _ |- _ => injection Heq as <- <- <-
    end; reflexivity.
Qed.

(** X12: a failed certificate generation is fatal: Generate returns
    its error under the label of the certificate creation, and neither
    loads a configuration nor starts the serving loop. *)
Theorem Generate_generation_failure
        (w : World) (o : Outcome unit) (s' : State World)
        (cf kf : string) (e : error) :
  Generate E confDir guiUser guiPassword noDefaultFolder skipPortProbing
           (initial w) = (o, s') ->
  In (EvGenerateCertificate cf kf (Error e)) (st_trace s') ->
  o = Fail (ErrWrap "create certificate" e)
  /\ no_event is_ConfigLoad (st_trace s') = true
  /\ no_event is_Serve (st_trace s') = true.
Proof.
  intros H Hin. paths H; cbn in Hin; intuition (try discriminate);
    match goal with
    | Heq : EvGenerateCertificate _ _ _ = EvGenerateCertificate _ _ _ |- _ =>
        injection Heq as <- <- <-
    end; reflexivity.
Qed.

(** X13: when Modify refuses the request, Generate returns its error
    under the label of the modification, without waiting and without
    saving. *)
Theorem Generate_modify_refused
        (w : World) (o : Outcome unit) (s' : State World) (e : error) :
  Generate E confDir guiUser guiPassword noDefaultFolder skipPortProbing
           (initial w) = (o, s') ->
  In (EvModify (Some e)) (st_trace s') ->
  o = Fail (ErrWrap "modify config" e)
  /\ no_event is_Wait (st_trace s') = true
  /\ no_event is_Save (st_trace s') = true.
Proof.
  intros H Hin. paths H; cbn in Hin; intuition (try discriminate);
    match goal with
    | Heq : EvModify _ = EvModify _ |- _ => injection Heq as <-
    end; reflexivity.
Qed.

End GenerateOutcomes.

Section GenerateNoCredentials.

Variable World : Type.
Variable E : Env World.

(** X7: with no user name and no password given, Generate hands to
    Save exactly the configuration it loaded or created, and never
    calls the hashing primitive. *)
Theorem Generate_without_credentials
        (confDir : string) (noDefaultFolder skipPortProbing : bool)
        (w : World) (o : Outcome unit) (s' : State World)
        (cfg : Configuration) (err : option error) :
  Generate E confDir "" "" noDefaultFolder skipPortProbing (initial w) = (o, s') ->
  In (EvSave cfg err) (st_trace s') ->
  ((exists f i, In (EvConfigLoad f i (Ok cfg)) (st_trace s'))
   \/ (exists f i a b, In (EvDefaultConfig f i a b (Ok cfg)) (st_trace s')))
  /\ no_event is_Hash (st_trace s') = true.
Proof.
  intros H Hin. paths H; cbn in Hin; intuition (try discriminate);
    match goal with
    | Heq : EvSave _ _ = EvSave _ _ |- _ => injection Heq as <- <-
    end;
    repeat match goal with
      | c : Configuration |- _ => destruct c
      end;
    cbn; some_case.
Qed.

End GenerateNoCredentials.

(** ** More on reading a line *)

Lemma has_byte_append (d : ascii) (a b : string) :
  has_byte d (a ++ b) = has_byte d a || has_byte d b.
Proof.
  induction a as [| c a IH]; cbn; [reflexivity |].
  now rewrite IH, orb_assoc.
Qed.

Lemma has_byte_substring (d : ascii) (x : string) :
  has_byte d x = false -> forall k, has_byte d (substring 0 k x) = false.
Proof.
  induction x as [| c x IH]; intros H k.
  - destruct k; reflexivity.
  - destruct k; [reflexivity |]. cbn in *.
    apply orb_false_iff in H as [Hc Hx]. now rewrite Hc, IH.
Qed.

Lemma length_substring_le (x : string) :
  forall k, String.length (substring 0 k x) <= k
            /\ String.length (substring 0 k x) <= String.length x.
Proof.
  induction x as [| c x IH]; intro k.
  - destruct k; cbn; lia.
  - destruct k; cbn; [lia |]. destruct (IH k). lia.
Qed.

Lemma substring_all (x : string) :
  forall n, String.length x <= n -> substring 0 n x = x.
Proof.
  induction x as [| c x IH]; intros n H.
  - destruct n; reflexivity.
  - destruct n; cbn in *; [lia |]. rewrite IH by lia. reflexivity.
Qed.

Lemma substring_append_left (a b : string) :
  forall k, k <= String.length a -> substring 0 k (a ++ b) = substring 0 k a.
Proof.
  induction a as [| c a IH]; intros k H.
  - cbn in H. replace k with 0 by lia. destruct b; reflexivity.
  - destruct k; [reflexivity |]. cbn in *. rewrite IH by lia. reflexivity.
Qed.

Lemma index_byte_none (d : ascii) (s : string) :
  forall n, index_byte d n s = None -> has_byte d (substring 0 n s) = false.
Proof.
  induction s as [| c s IH]; intros n H.
  - destruct n; reflexivity.
  - destruct n; [reflexivity |]. cbn in *.
    destruct (Ascii.eqb c d); [discriminate |].
    destruct (index_byte d n s) eqn:Hi; [discriminate |].
    now rewrite IH.
Qed.

(** A delimiter found at [i]: the bytes before it hold none, and the
    slice up to it is those bytes followed by the delimiter. *)
Lemma index_byte_some (d : ascii) (s : string) :
  forall n i,
    index_byte d n s = Some i ->
    i < n
    /\ has_byte d (substring 0 i s) = false
    /\ String.length (substring 0 i s) = i
    /\ substring 0 (S i) s = (substring 0 i s ++ String d "")%string.
Proof.
  induction s as [| c s IH]; intros n i H.
  - destruct n; discriminate.
  - destruct n; [discriminate |]. cbn in H.
    destruct (Ascii.eqb c d) eqn:Hc.
    + injection H as <-. apply Ascii.eqb_eq in Hc. subst c.
      repeat split; [lia |]. cbn. destruct s; reflexivity.
    + destruct (index_byte d n s) as [j |] eqn:Hj; [| discriminate].
      injection H as <-. destruct (IH n j Hj) as (Hlt & Hno & Hlen & Hsub).
      repeat split; [lia | | |].
      * cbn. now rewrite Hc, Hno.
      * cbn. now rewrite Hlen.
      * change (substring 0 (S (S j)) (String c s))
          with (String c (substring 0 (S j) s)).
        rewrite Hsub. reflexivity.
Qed.

Lemma get_has_byte (c : ascii) (s : string) :
  forall n, String.get n s = Some c -> has_byte c s = true.
Proof.
  induction s as [| x s IH]; intros n H; [discriminate |].
  destruct n; cbn in *.
  - injection H as ->. now rewrite Ascii.eqb_refl.
  - rewrite (IH n H). apply orb_true_r.
Qed.

Lemma last_byte_has_byte (c : ascii) (s : string) :
  has_byte c s = false -> last_byte_is c s = false.
Proof.
  intro H. unfold last_byte_is.
  destruct (String.length s) as [| n]; [reflexivity |].
  destruct (String.get n s) as [x |] eqn:Hg; [| reflexivity].
  destruct (Ascii.eqb x c) eqn:Hx; [| reflexivity].
  apply Ascii.eqb_eq in Hx. subst x.
  apply get_has_byte in Hg. congruence.
Qed.

(** What ReadLine returns never holds a newline and never exceeds the
    buffer. *)
Lemma ReadLine_sized_bounded (size : nat) (r : Stdin) :
  let line := fst (fst (ReadLine_sized size r)) in
  has_byte newline line = false /\ String.length line <= size.
Proof.
  unfold ReadLine_sized, ReadSlice.
  destruct (index_byte newline size (in_bytes r)) as [i |] eqn:Hi.
  - destruct (index_byte_some _ _ _ _ Hi) as (Hlt & Hno & Hlen & Hsub).
    rewrite Hsub. set (pre := substring 0 i (in_bytes r)) in *.
    rewrite length_append. cbn [String.length].
    replace (String.length pre + 1 =? 0)%nat with false
      by (symmetry; apply Nat.eqb_neq; lia).
    rewrite last_byte_snoc, Ascii.eqb_refl, drop_last_snoc.
    destruct ((1 <? String.length pre + 1)%nat && last_byte_is carriage_return pre);
      cbn [fst].
    + unfold drop_last. rewrite length_append. cbn [String.length].
      rewrite substring_append_left by lia.
      split; [now apply has_byte_substring |].
      destruct (length_substring_le pre (String.length pre + 1 - 2)). lia.
    + split; [assumption | lia].
  - apply index_byte_none in Hi.
    destruct (size <=? String.length (in_bytes r))%nat eqn:Hfull.
    + set (raw := substring 0 size (in_bytes r)) in *.
      destruct (length_substring_le (in_bytes r) size) as [Hle _]. fold raw in Hle.
      destruct (last_byte_is carriage_return raw); cbn [fst].
      * unfold drop_last. split; [now apply has_byte_substring |].
        destruct (length_substring_le raw (String.length raw - 1)). lia.
      * split; assumption.
    + apply Nat.leb_gt in Hfull.
      rewrite substring_all in Hi by lia.
      destruct (String.length (in_bytes r) =? 0)%nat; [split; [reflexivity | cbn; lia] |].
      rewrite (last_byte_has_byte _ _ Hi). cbn [fst]. split; [assumption | lia].
Qed.

Lemma index_byte_absent (d : ascii) (s : string) :
  has_byte d s = false -> forall n, index_byte d n s = None.
Proof.
  induction s as [| c s IH]; intros H n.
  - destruct n; reflexivity.
  - destruct n; [reflexivity |]. cbn in *.
    apply orb_false_iff in H as [Hc Hs]. now rewrite Hc, IH.
Qed.

(** The last line of the input, without a newline. *)
Lemma ReadLine_sized_unterminated (size : nat) (l : string) (e : error) :
  l <> "" ->
  has_byte newline l = false ->
  String.length l < size ->
  ReadLine_sized size (mkStdin l e) = (l, false, None).
Proof.
  intros Hne Hno Hlen. unfold ReadLine_sized, ReadSlice. cbn [in_bytes in_err].
  rewrite index_byte_absent by assumption.
  replace (size <=? String.length l)%nat with false
    by (symmetry; apply Nat.leb_gt; lia).
  replace (String.length l =? 0)%nat with false.
  2:{ symmetry. apply Nat.eqb_neq. destruct l; [congruence | cbn; lia]. }
  rewrite (last_byte_has_byte _ _ Hno). reflexivity.
Qed.

(** A line ended by carriage return and newline. *)
Lemma ReadLine_sized_crlf (size : nat) (l rest : string) (e : error) :
  has_byte newline l = false ->
  S (String.length l) < size ->
  ReadLine_sized size
    (mkStdin (l ++ String carriage_return (String newline rest))%string e)
  = (l, false, None).
Proof.
  intros Hno Hlen.
  replace (l ++ String carriage_return (String newline rest))%string
    with ((l ++ String carriage_return "") ++ String newline rest)%string.
  2:{ clear. induction l as [| c l IH]; simpl; [reflexivity | f_equal; exact IH]. }
  unfold ReadLine_sized, ReadSlice. cbn [in_bytes].
  rewrite index_byte_line.
  2:{ rewrite has_byte_append, Hno. reflexivity. }
  2:{ rewrite length_append. cbn. lia. }
  replace ((l ++ String carriage_return "") ++ String newline rest)%string
    with (((l ++ String carriage_return "") ++ String newline "") ++ rest)%string.
  2:{ clear. induction l as [| c l IH]; simpl; [reflexivity | f_equal; exact IH]. }
  replace (S (String.length (l ++ String carriage_return "")))
    with (String.length ((l ++ String carriage_return "") ++ String newline "")%string).
  2:{ rewrite !length_append. cbn. lia. }
  rewrite substring_prefix, !length_append. cbn [String.length].
  replace (String.length l + 1 + 1 =? 0)%nat with false
    by (symmetry; apply Nat.eqb_neq; lia).
  replace (1 <? String.length l + 1 + 1)%nat with true
    by (symmetry; apply Nat.ltb_lt; lia).
  rewrite last_byte_snoc, Ascii.eqb_refl, drop_last_snoc, last_byte_snoc,
    Ascii.eqb_refl. cbn [andb].
  unfold drop_last. rewrite !length_append. cbn [String.length].
  replace (String.length l + 1 + 1 - 2) with (String.length l) by lia.
  replace ((l ++ String carriage_return "") ++ String newline "")%string
    with (l ++ String carriage_return (String newline ""))%string.
  2:{ clear. induction l as [| c l IH]; simpl; [reflexivity | f_equal; exact IH]. }
  rewrite substring_prefix. reflexivity.
Qed.

(** ** More on CLI.Run *)

Section RunMore.

Variable World : Type.
Variable E : Env World.

(** What Generate returns, what it does to the world and what it adds
    to the trace do not depend on the trace so far. *)
Lemma Generate_from_state
      (confDir guiUser guiPassword : string) (ndf spp : bool) (s : State World) :
  let a := Generate E confDir guiUser guiPassword ndf spp s in
  let b := Generate E confDir guiUser guiPassword ndf spp (initial (st_world s)) in
  fst a = fst b
  /\ st_world (snd a) = st_world (snd b)
  /\ st_trace (snd a) = st_trace s ++ st_trace (snd b).
Proof.
  destruct s as [w tr u]. unfold_program. cbn.
  repeat branch_goal.
  all: repeat split; rewrite <- ?app_assoc; try reflexivity.
Qed.

Lemma Generate_ExpandTilde_path
      (confDir guiUser guiPassword : string) (ndf spp : bool) (w : World)
      (p : string) (r : Result string) :
  In (EvExpandTilde p r)
     (st_trace (snd (Generate E confDir guiUser guiPassword ndf spp (initial w)))) ->
  p = confDir.
Proof.
  destruct (Generate E confDir guiUser guiPassword ndf spp (initial w))
    as [o s'] eqn:H.
  cbn [snd]. intro Hin. paths H; cbn in Hin; intuition (try discriminate);
    match goal with
    | Heq : EvExpandTilde _ _ = EvExpandTilde _ _ |- _ => now injection Heq
    end.
Qed.

Lemma Run_generate_parts (c : CLI) (s : State World) :
  let g := Generate E (ConfDir c) (GUIUser c) (GUIPassword c)
                    (NoDefaultFolder c) (SkipPortProbing c) s in
  fst (fst (Run_generate E c s)) = c
  /\ snd (Run_generate E c s) = snd g
  /\ snd (fst (Run_generate E c s))
     = match fst g with
       | Fail err => Fail (ErrWrap "failed to generate config and keys" err)
       | o => o
       end.
Proof.
  unfold Run_generate.
  destruct (Generate E (ConfDir c) (GUIUser c) (GUIPassword c)
                     (NoDefaultFolder c) (SkipPortProbing c) s) as [[[] | e | m] s'];
    repeat split.
Qed.

Lemma Run_directory_fields (c : CLI) (w : World) :
  let c0 := Run_directory E c w in
  ConfDir c0 = (if nonempty (HomeDir c) then HomeDir c
                else if nonempty (ConfDir c) then ConfDir c
                else locations_GetBaseDir E w)
  /\ GUIUser c0 = GUIUser c /\ GUIPassword c0 = GUIPassword c
  /\ NoDefaultFolder c0 = NoDefaultFolder c
  /\ SkipPortProbing c0 = SkipPortProbing c.
Proof.
  unfold Run_directory.
  destruct (nonempty (HomeDir c)) eqn:Hh; cbn [set_ConfDir ConfDir].
  - unfold nonempty in Hh. apply negb_true_iff in Hh. rewrite Hh.
    repeat split.
  - unfold nonempty. destruct (String.eqb (ConfDir c) "") eqn:Hc; cbn;
      repeat split.
Qed.

Lemma Run_prelude_parts (c : CLI) (s : State World) :
  st_world (Run_prelude E c s)
  = (if HideConsole c then osutil_HideConsole E (st_world s) else st_world s)
  /\ st_trace (Run_prelude E c s)
     = st_trace s ++ EvLogSetFlags 0
                  :: (if HideConsole c then [EvHideConsole] else []).
Proof.
  unfold Run_prelude. destruct (HideConsole c); cbn; split; auto.
  now rewrite <- app_assoc.
Qed.

(** X14: unless the password argument is the sentinel, Run does not
    depend on standard input at all. *)
Theorem Run_ignores_stdin_without_sentinel
        (c : CLI) (stdin stdin' : Stdin) (s : State World) :
  GUIPassword c <> "-" ->
  Run E c stdin s = Run E c stdin' s.
Proof.
  intro Hne.
  destruct (nonempty (HomeDir c) && nonempty (ConfDir c)) eqn:Hconf.
  - unfold Run. rewrite Hconf. reflexivity.
  - destruct (Run_resolves_password World E c stdin s Hconf) as [H1 _].
    destruct (Run_resolves_password World E c stdin' s Hconf) as [H2 _].
    rewrite (H1 Hne), (H2 Hne). reflexivity.
Qed.

(** X15: the directory Run works in, as handed to ExpandTilde: the
    home directory option when given, else the configuration directory
    option when given, else the base directory of lib/locations; the
    same directory is left in the ConfDir field of the CLI. *)
Theorem Run_directory_resolution
        (c : CLI) (stdin : Stdin) (w : World) (p : string) (r : Result string) :
  In (EvExpandTilde p r) (st_trace (snd (Run E c stdin (initial w)))) ->
  p = (if nonempty (HomeDir c) then HomeDir c
       else if nonempty (ConfDir c) then ConfDir c
       else locations_GetBaseDir E
              (if HideConsole c then osutil_HideConsole E w else w))
  /\ ConfDir (fst (fst (Run E c stdin (initial w)))) = p.
Proof.
  intro Hin.
  destruct (nonempty (HomeDir c) && nonempty (ConfDir c)) eqn:Hconf.
  { unfold Run in Hin. rewrite Hconf in Hin.
    destruct (HideConsole c); cbn in Hin; intuition discriminate. }
  pose proof (Run_resolves_password World E c stdin (initial w) Hconf)
    as (Hplain & Hline & Hfail). cbv zeta in Hplain, Hline, Hfail.
  destruct (Run_prelude_parts c (initial w)) as [Hpw Hpt].
  cbn [initial st_world st_trace app] in Hpw, Hpt.
  destruct (Run_directory_fields c (st_world (Run_prelude E c (initial w))))
    as (Hdir & _). cbv zeta in Hdir.
  enough (Hgoal : p = ConfDir (Run_directory E c (st_world (Run_prelude E c (initial w))))
                  /\ ConfDir (fst (fst (Run E c stdin (initial w)))) = p).
  { destruct Hgoal as [Hp Hc]. split; [| exact Hc].
    rewrite Hp, Hdir, Hpw. reflexivity. }
  clear Hdir Hpw.
  assert (Hgen : forall c1 evs,
             ConfDir c1 = ConfDir (Run_directory E c (st_world (Run_prelude E c (initial w)))) ->
             (forall q x, ~ In (EvExpandTilde q x) evs) ->
             Run E c stdin (initial w)
             = Run_generate E c1
                 (mkState (st_world (Run_prelude E c (initial w))) evs
                          (st_updateErr (Run_prelude E c (initial w)))) ->
             p = ConfDir c1 /\ ConfDir (fst (fst (Run E c stdin (initial w)))) = p).
  { intros c1 evs Hc1 Hevs Hrun. rewrite Hrun in Hin |- *.
    destruct (Run_generate_parts c1
                (mkState (st_world (Run_prelude E c (initial w))) evs
                         (st_updateErr (Run_prelude E c (initial w)))))
      as (Hc & Hs & _). rewrite Hc, Hs in *.
    destruct (Generate_from_state (ConfDir c1) (GUIUser c1) (GUIPassword c1)
                (NoDefaultFolder c1) (SkipPortProbing c1)
                (mkState (st_world (Run_prelude E c (initial w))) evs
                         (st_updateErr (Run_prelude E c (initial w)))))
      as (_ & _ & Ht). rewrite Ht in Hin. cbn [st_trace st_world] in Hin.
    apply in_app_or in Hin as [Hin | Hin]; [now apply Hevs in Hin |].
    apply Generate_ExpandTilde_path in Hin. now subst p. }
  assert (Hpre : forall q x, ~ In (EvExpandTilde q x)
                               (st_trace (Run_prelude E c (initial w)))).
  { intros q x. rewrite Hpt. destruct (HideConsole c); cbn; intuition discriminate. }
  destruct (String.eqb (GUIPassword c) "-") eqn:Hs.
  - apply String.eqb_eq in Hs.
    destruct (ReadLine stdin) as [[line isPrefix] [err |]] eqn:Hrl.
    + rewrite (Hfail Hs _ _ _ eq_refl) in Hin. cbn in Hin.
      apply in_app_or in Hin as [Hin | Hin]; [now apply Hpre in Hin |].
      cbn in Hin. intuition discriminate.
    + refine (Hgen (set_GUIPassword _ line) _ eq_refl _ (Hline Hs _ _ eq_refl)).
      intros q x Hq. cbn in Hq. apply in_app_or in Hq as [Hq | Hq];
        [now apply Hpre in Hq | cbn in Hq; intuition discriminate].
  - apply String.eqb_neq in Hs.
    refine (Hgen _ _ eq_refl Hpre _).
    rewrite (Hplain Hs). destruct (Run_prelude E c (initial w)); reflexivity.
Qed.

(** X16: with the sentinel and a first line shorter than the buffer,
    not ended by a carriage return, Run goes on as Generate with that
    line, without its newline, as password; the rest of the input does
    not matter. *)
Theorem Run_reads_password_line
        (c : CLI) (l rest : string) (e : error) (s : State World) :
  nonempty (HomeDir c) && nonempty (ConfDir c) = false ->
  GUIPassword c = "-" ->
  has_byte newline l = false ->
  last_byte_is carriage_return l = false ->
  String.length l < defaultBufSize ->
  let run := Run E c (mkStdin (l ++ String newline rest) e) s in
  let s0 := Run_prelude E c s in
  let c0 := Run_directory E c (st_world s0) in
  run = Run_generate E (set_GUIPassword c0 l) (emit (EvReadLine l false None) s0)
  /\ GUIPassword (fst (fst run)) = l.
Proof.
  intros Hconf Hs Hno Hcr Hlen run s0 c0.
  destruct (Run_resolves_password World E c (mkStdin (l ++ String newline rest) e)
              s Hconf) as (_ & Hline & _).
  assert (Hrun : run = Run_generate E (set_GUIPassword c0 l)
                                    (emit (EvReadLine l false None) s0)).
  { apply (Hline Hs). now apply ReadLine_line. }
  split; [exact Hrun |]. rewrite Hrun.
  destruct (Run_generate_parts (set_GUIPassword c0 l)
              (emit (EvReadLine l false None) s0)) as (-> & _). reflexivity.
Qed.

(** X17: a first line ended by carriage return and newline loses
    both. *)
Theorem Run_reads_password_line_crlf
        (c : CLI) (l rest : string) (e : error) (s : State World) :
  nonempty (HomeDir c) && nonempty (ConfDir c) = false ->
  GUIPassword c = "-" ->
  has_byte newline l = false ->
  S (String.length l) < defaultBufSize ->
  GUIPassword
    (fst (fst (Run E c (mkStdin (l ++ String carriage_return
                                          (String newline rest)) e) s)))
  = l.
Proof.
  intros Hconf Hs Hno Hlen.
  destruct (Run_resolves_password World E c
              (mkStdin (l ++ String carriage_return (String newline rest)) e)
              s Hconf) as (_ & Hline & _).
  rewrite (Hline Hs l false (ReadLine_sized_crlf _ l rest e Hno Hlen)).
  destruct (Run_generate_parts
              (set_GUIPassword (Run_directory E c (st_world (Run_prelude E c s))) l)
              (emit (EvReadLine l false None) (Run_prelude E c s))) as (-> & _).
  reflexivity.
Qed.

(** X18: input that ends, or fails, before any newline is taken as the
    password all the same, as long as it is not empty: the error that
    ended it is not reported. *)
Theorem Run_reads_unterminated_line
        (c : CLI) (l : string) (e : error) (s : State World) :
  nonempty (HomeDir c) && nonempty (ConfDir c) = false ->
  GUIPassword c = "-" ->
  l <> "" ->
  has_byte newline l = false ->
  String.length l < defaultBufSize ->
  let run := Run E c (mkStdin l e) s in
  GUIPassword (fst (fst run)) = l
  /\ snd (fst run)
     <> Fail (ErrWrap "failed reading GUI password" e).
Proof.
  intros Hconf Hs Hne Hno Hlen run.
  destruct (Run_resolves_password World E c (mkStdin l e) s Hconf)
    as (_ & Hline & _).
  unfold run.
  rewrite (Hline Hs l false (ReadLine_sized_unterminated _ l e Hne Hno Hlen)).
  destruct (Run_generate_parts
              (set_GUIPassword (Run_directory E c (st_world (Run_prelude E c s))) l)
              (emit (EvReadLine l false None) (Run_prelude E c s)))
    as (-> & _ & ->).
  split; [reflexivity |].
  destruct (fst (Generate E _ _ _ _ _ _)); discriminate.
Qed.

(** X19: with the sentinel and nothing to read, Run returns the error
    of the read under the label of the password reading, leaves the
    password field at the sentinel and does not enter Generate. *)
Theorem Run_empty_stdin_fails
        (c : CLI) (e : error) (s : State World) :
  nonempty (HomeDir c) && nonempty (ConfDir c) = false ->
  GUIPassword c = "-" ->
  exists c',
    Run E c (mkStdin "" e) s
    = (c', Fail (ErrWrap "failed reading GUI password" e),
       emit (EvReadLine "" false (Some e)) (Run_prelude E c s))
    /\ GUIPassword c' = "-".
Proof.
  intros Hconf Hs.
  destruct (Run_resolves_password World E c (mkStdin "" e) s Hconf)
    as (_ & _ & Hfail).
  eexists. split; [apply (Hfail Hs); reflexivity |].
  destruct (Run_directory_fields c (st_world (Run_prelude E c s)))
    as (_ & _ & -> & _). exact Hs.
Qed.

(** X20: whatever standard input holds, the password Run leaves in the
    CLI after the sentinel holds no newline and is at most one buffer,
    4096 bytes, long. *)
Theorem Run_stdin_password_bounded
        (c : CLI) (stdin : Stdin) (s : State World) :
  GUIPassword c = "-" ->
  let password := GUIPassword (fst (fst (Run E c stdin s))) in
  has_byte newline password = false
  /\ String.length password <= defaultBufSize.
Proof.
  intros Hs password.
  assert (Hdash : has_byte newline "-" = false
                  /\ String.length "-" <= defaultBufSize).
  { split; [reflexivity | apply Nat.leb_le; reflexivity]. }
  destruct (nonempty (HomeDir c) && nonempty (ConfDir c)) eqn:Hconf.
  { unfold password, Run. rewrite Hconf. cbn [fst]. now rewrite Hs. }
  destruct (Run_resolves_password World E c stdin s Hconf) as (_ & Hline & Hfail).
  pose proof (ReadLine_sized_bounded defaultBufSize stdin) as Hb.
  fold (ReadLine stdin) in Hb. cbv zeta in Hb.
  destruct (ReadLine stdin) as [[line isPrefix] [err |]] eqn:Hrl.
  - unfold password. rewrite (Hfail Hs _ _ _ eq_refl). cbn [fst].
    destruct (Run_directory_fields c (st_world (Run_prelude E c s)))
      as (_ & _ & -> & _). now rewrite Hs.
  - unfold password. rewrite (Hline Hs _ _ eq_refl).
    destruct (Run_generate_parts
                (set_GUIPassword (Run_directory E c (st_world (Run_prelude E c s))) line)
                (emit (EvReadLine line isPrefix None) (Run_prelude E c s)))
      as (-> & _). exact Hb.
Qed.

(** X21: every error Run returns is the error of the conflicting
    directory options, a failed read of the password under its label,
    or an error of Generate under the label of the generation. *)
Theorem Run_errors_are_labelled
        (c : CLI) (stdin : Stdin) (s : State World) (err : error) :
  snd (fst (Run E c stdin s)) = Fail err ->
  (err = ErrMsg "--home must not be used together with --config"
   /\ HomeDir c <> "" /\ ConfDir c <> "")
  \/ (exists e line isPrefix,
         err = ErrWrap "failed reading GUI password" e
         /\ GUIPassword c = "-"
         /\ ReadLine stdin = (line, isPrefix, Some e))
  \/ (exists e confDir password s1,
         err = ErrWrap "failed to generate config and keys" e
         /\ fst (Generate E confDir (GUIUser c) password
                          (NoDefaultFolder c) (SkipPortProbing c) s1) = Fail e).
Proof.
  intro H.
  destruct (nonempty (HomeDir c) && nonempty (ConfDir c)) eqn:Hconf.
  { left. unfold Run in H. rewrite Hconf in H. cbn in H. injection H as <-.
    apply andb_true_iff in Hconf as [Hh Hc].
    repeat split; intro Heq; rewrite Heq in *; discriminate. }
  right.
  destruct (Run_resolves_password World E c stdin s Hconf)
    as (Hplain & Hline & Hfail).
  destruct (Run_directory_fields c (st_world (Run_prelude E c s)))
    as (_ & Hu & Hp & Hn & Hk).
  assert (Hgen : forall c1 s1,
             GUIUser c1 = GUIUser c -> NoDefaultFolder c1 = NoDefaultFolder c ->
             SkipPortProbing c1 = SkipPortProbing c ->
             Run E c stdin s = Run_generate E c1 s1 ->
             exists e confDir password s2,
               err = ErrWrap "failed to generate config and keys" e
               /\ fst (Generate E confDir (GUIUser c) password
                                (NoDefaultFolder c) (SkipPortProbing c) s2)
                  = Fail e).
  { intros c1 s1 H1 H2 H3 Hrun. rewrite Hrun in H.
    destruct (Run_generate_parts c1 s1) as (_ & _ & Ho). rewrite Ho in H.
    rewrite H1, H2, H3 in H.
    destruct (fst (Generate E (ConfDir c1) (GUIUser c) (GUIPassword c1)
                            (NoDefaultFolder c) (SkipPortProbing c) s1))
      as [[] | e0 | m] eqn:Hg; try discriminate.
    injection H as <-. now exists e0, (ConfDir c1), (GUIPassword c1), s1. }
  destruct (String.eqb (GUIPassword c) "-") eqn:Hs.
  - apply String.eqb_eq in Hs.
    destruct (ReadLine stdin) as [[line isPrefix] [e0 |]] eqn:Hrl.
    + left. rewrite (Hfail Hs _ _ _ eq_refl) in H. cbn in H. injection H as <-.
      now exists e0, line, isPrefix.
    + right.
      exact (Hgen (set_GUIPassword _ line) _ Hu Hn Hk (Hline Hs _ _ eq_refl)).
  - apply String.eqb_neq in Hs. right.
    apply (Hgen _ _ Hu Hn Hk (Hplain Hs)).
Qed.

End RunMore.

(** ** Instances of the further properties *)

Lemma updateGUIAuthentication_rehashes_on_repeat_witness :
  exists r,
    st_trace (snd (updateGUIAuthentication Sim.env
                     (set_Password (GUI Sim.old_config) "$2a$10$abc123")
                     "" "abc123" (initial Sim.provisioned)))
    = [] ++ EvHash "abc123" r
         :: match r with
            | Ok _ => [EvLog [LStr "Updated GUI authentication password."]]
            | Error _ => []
            end.
Proof.
  apply (updateGUIAuthentication_rehashes_on_repeat Sim.World Sim.env
           (GUI Sim.old_config)
           (set_Password (GUI Sim.old_config) "$2a$10$abc123")
           "" "abc123" (initial Sim.provisioned)
           (mkState Sim.provisioned
                    [EvHash "abc123" (Ok "$2a$10$abc123");
                     EvLog [LStr "Updated GUI authentication password."]] None)
           (initial Sim.provisioned)).
  - discriminate.
  - reflexivity.
  - discriminate.
Defined.

Lemma Generate_errors_are_labelled_witness :
  let run := Generate Sim.env "/cfg" "bob" "abc123" false false
                      (initial Sim.exhausted) in
  let err := ErrWrap "failed to set GUI authentication password"
                     (ErrMsg "crypto/rand: entropy source unavailable") in
  (exists p, In (EvExpandTilde p (Error err)) (st_trace (snd run)))
  \/ (exists d m, In (EvEnsureDir d m (Some err)) (st_trace (snd run)))
  \/ (exists cf kf e, err = ErrWrap "create certificate" e
        /\ In (EvGenerateCertificate cf kf (Error e)) (st_trace (snd run)))
  \/ (exists f i e, err = ErrWrap "load config" e
        /\ In (EvConfigLoad f i (Error e)) (st_trace (snd run))
        /\ fs_IsNotExist Sim.env e = false)
  \/ (exists f i a b e, err = ErrWrap "create config" e
        /\ In (EvDefaultConfig f i a b (Error e)) (st_trace (snd run)))
  \/ (exists e, err = ErrWrap "modify config" e
        /\ In (EvModify (Some e)) (st_trace (snd run)))
  \/ (exists e, err = ErrWrap "failed to set GUI authentication password" e
        /\ In (EvHash "abc123" (Error e)) (st_trace (snd run)))
  \/ (exists cfg e, err = ErrWrap "save config" e
        /\ In (EvSave cfg (Some e)) (st_trace (snd run))).
Proof.
  apply (Generate_errors_are_labelled Sim.World Sim.env
           "/cfg" "bob" "abc123" false false Sim.exhausted
           (fst (Generate Sim.env "/cfg" "bob" "abc123" false false
                          (initial Sim.exhausted)))
           (snd (Generate Sim.env "/cfg" "bob" "abc123" false false
                          (initial Sim.exhausted)))).
  - vm_compute. reflexivity.
  - vm_compute. reflexivity.
Defined.

Lemma Generate_outcome_of_save_witness :
  let run := Generate Sim.env "/cfg" "bob" "abc123" false false
                      (initial Sim.provisioned) in
  (fst run = Val tt -> exists c, In (EvSave c None) (st_trace (snd run)))
  /\ (In (EvSave Sim.saved_bob None) (st_trace (snd run)) -> fst run = Val tt).
Proof.
  apply (Generate_outcome_of_save Sim.World Sim.env
           "/cfg" "bob" "abc123" false false Sim.provisioned
           (fst (Generate Sim.env "/cfg" "bob" "abc123" false false
                          (initial Sim.provisioned)))
           (snd (Generate Sim.env "/cfg" "bob" "abc123" false false
                          (initial Sim.provisioned)))
           Sim.saved_bob None).
  vm_compute. reflexivity.
Defined.

Lemma Generate_saves_loaded_configuration_witness :
  let tr := st_trace (snd (Generate Sim.env "/cfg" "bob" "abc123" false false
                                    (initial Sim.provisioned))) in
  exists cfg0,
    ((exists f i, In (EvConfigLoad f i (Ok cfg0)) tr)
     \/ (exists f i a b, In (EvDefaultConfig f i a b (Ok cfg0)) tr))
    /\ cfg_rest Sim.saved_bob = cfg_rest cfg0
    /\ gui_rest (GUI Sim.saved_bob) = gui_rest (GUI cfg0)
    /\ User (GUI Sim.saved_bob) = (if nonempty "bob" then "bob" else User (GUI cfg0))
    /\ (Password (GUI Sim.saved_bob) = Password (GUI cfg0)
          /\ no_event is_Hash tr = true
        \/ exists h, In (EvHash "abc123" (Ok h)) tr
                     /\ Password (GUI Sim.saved_bob) = h).
Proof.
  apply (Generate_saves_loaded_configuration Sim.World Sim.env
           "/cfg" "bob" "abc123" false false Sim.provisioned
           (fst (Generate Sim.env "/cfg" "bob" "abc123" false false
                          (initial Sim.provisioned)))
           (snd (Generate Sim.env "/cfg" "bob" "abc123" false false
                          (initial Sim.provisioned)))
           Sim.saved_bob None).
  - vm_compute. reflexivity.
  - vm_compute. do 13 right. left. reflexivity.
Defined.

Lemma Generate_without_credentials_witness :
  let tr := st_trace (snd (Generate Sim.env "/cfg" "" "" false false
                                    (initial Sim.provisioned))) in
  ((exists f i, In (EvConfigLoad f i (Ok Sim.old_config)) tr)
   \/ (exists f i a b, In (EvDefaultConfig f i a b (Ok Sim.old_config)) tr))
  /\ no_event is_Hash tr = true.
Proof.
  apply (Generate_without_credentials Sim.World Sim.env
           "/cfg" false false Sim.provisioned
           (fst (Generate Sim.env "/cfg" "" "" false false
                          (initial Sim.provisioned)))
           (snd (Generate Sim.env "/cfg" "" "" false false
                          (initial Sim.provisioned)))
           Sim.old_config None).
  - vm_compute. reflexivity.
  - vm_compute. do 10 right. left. reflexivity.
Defined.

Lemma Generate_cancel_after_serve_witness :
  let tr := st_trace (snd (Generate Sim.env "/cfg" "bob" "abc123" false false
                                    (initial Sim.exhausted))) in
  (In EvServe tr ->
   exists tr0, tr = tr0 ++ [EvCancel] /\ no_event is_Cancel tr0 = true)
  /\ (~ In EvServe tr -> no_event is_Cancel tr = true).
Proof.
  apply (Generate_cancel_after_serve Sim.World Sim.env
           "/cfg" "bob" "abc123" false false Sim.exhausted
           (fst (Generate Sim.env "/cfg" "bob" "abc123" false false
                          (initial Sim.exhausted)))
           (snd (Generate Sim.env "/cfg" "bob" "abc123" false false
                          (initial Sim.exhausted)))).
  vm_compute. reflexivity.
Defined.


Lemma Generate_directory_prepared_witness :
  let tr := st_trace (snd (Generate Sim.env "/cfg" "" "" false false
                                    (initial Sim.empty_dir))) in
  exists dir w0,
    fs_ExpandTilde Sim.env "/cfg" Sim.empty_dir = Ok dir
    /\ syncthing_EnsureDir Sim.env dir mode_0700 Sim.empty_dir = (None, w0)
    /\ firstn 3 tr
       = [EvExpandTilde "/cfg" (Ok dir); EvEnsureDir dir mode_0700 None;
          EvSetBaseDir dir]
    /\ "/cfg/cert.pem"
       = locations_Get Sim.env CertFile (locations_SetBaseDir Sim.env dir w0)
    /\ "/cfg/key.pem"
       = locations_Get Sim.env KeyFile (locations_SetBaseDir Sim.env dir w0)
    /\ Error Sim.ErrNotExist
       = tls_LoadX509KeyPair Sim.env "/cfg/cert.pem" "/cfg/key.pem"
                             (locations_SetBaseDir Sim.env dir w0).
Proof.
  apply (Generate_directory_prepared Sim.World Sim.env
           "/cfg" "" "" false false Sim.empty_dir
           (fst (Generate Sim.env "/cfg" "" "" false false
                          (initial Sim.empty_dir)))
           (snd (Generate Sim.env "/cfg" "" "" false false
                          (initial Sim.empty_dir)))
           "/cfg/cert.pem" "/cfg/key.pem" (Error Sim.ErrNotExist)).
  - vm_compute. reflexivity.
  - vm_compute. do 3 right. left. reflexivity.
Defined.

Lemma Generate_directory_failure_witness :
  let run := Generate (Sim.faulty Sim.read_only) "/cfg" "" "" false false
                      (initial Sim.empty_dir) in
  fst run = Fail (ErrMsg "mkdir /cfg: permission denied")
  /\ no_event is_SetBaseDir (st_trace (snd run)) = true
  /\ no_event is_LoadX509KeyPair (st_trace (snd run)) = true
  /\ no_event is_GenerateCertificate (st_trace (snd run)) = true.
Proof.
  apply (Generate_directory_failure Sim.World (Sim.faulty Sim.read_only)
           "/cfg" "" "" false false Sim.empty_dir
           (fst (Generate (Sim.faulty Sim.read_only) "/cfg" "" "" false false
                          (initial Sim.empty_dir)))
           (snd (Generate (Sim.faulty Sim.read_only) "/cfg" "" "" false false
                          (initial Sim.empty_dir)))
           "" "/cfg" mode_0700 (ErrMsg "mkdir /cfg: permission denied")).
  - vm_compute. reflexivity.
  - right. vm_compute. right. left. reflexivity.
Defined.

Lemma Generate_generation_failure_witness :
  let run := Generate (Sim.faulty Sim.no_entropy) "/cfg" "" "" false false
                      (initial Sim.empty_dir) in
  fst run
  = Fail (ErrWrap "create certificate"
                  (ErrMsg "crypto/rand: entropy source unavailable"))
  /\ no_event is_ConfigLoad (st_trace (snd run)) = true
  /\ no_event is_Serve (st_trace (snd run)) = true.
Proof.
  apply (Generate_generation_failure Sim.World (Sim.faulty Sim.no_entropy)
           "/cfg" "" "" false false Sim.empty_dir
           (fst (Generate (Sim.faulty Sim.no_entropy) "/cfg" "" "" false false
                          (initial Sim.empty_dir)))
           (snd (Generate (Sim.faulty Sim.no_entropy) "/cfg" "" "" false false
                          (initial Sim.empty_dir)))
           "/cfg/cert.pem" "/cfg/key.pem"
           (ErrMsg "crypto/rand: entropy source unavailable")).
  - vm_compute. reflexivity.
  - vm_compute. do 4 right. left. reflexivity.
Defined.

Lemma Generate_modify_refused_witness :
  let run := Generate (Sim.faulty Sim.refusing) "/cfg" "bob" "" false false
                      (initial Sim.provisioned) in
  fst run = Fail (ErrWrap "modify config" (ErrMsg "config rejected"))
  /\ no_event is_Wait (st_trace (snd run)) = true
  /\ no_event is_Save (st_trace (snd run)) = true.
Proof.
  apply (Generate_modify_refused Sim.World (Sim.faulty Sim.refusing)
           "/cfg" "bob" "" false false Sim.provisioned
           (fst (Generate (Sim.faulty Sim.refusing) "/cfg" "bob" "" false false
                          (initial Sim.provisioned)))
           (snd (Generate (Sim.faulty Sim.refusing) "/cfg" "bob" "" false false
                          (initial Sim.provisioned)))
           (ErrMsg "config rejected")).
  - vm_compute. reflexivity.
  - vm_compute. do 8 right. left. reflexivity.
Defined.

Lemma Run_ignores_stdin_without_sentinel_witness :
  Run Sim.env (Sim.cli "" "/cfg" "bob" "abc123") (Sim.line_of "secretpass")
      (initial Sim.provisioned)
  = Run Sim.env (Sim.cli "" "/cfg" "bob" "abc123") Sim.no_input
        (initial Sim.provisioned).
Proof.
  apply (Run_ignores_stdin_without_sentinel Sim.World Sim.env
           (Sim.cli "" "/cfg" "bob" "abc123") (Sim.line_of "secretpass")
           Sim.no_input (initial Sim.provisioned)).
  discriminate.
Defined.

Lemma Run_directory_resolution_witness :
  "/home"
  = (if nonempty (HomeDir (Sim.cli "/home" "" "" ""))
     then HomeDir (Sim.cli "/home" "" "" "")
     else if nonempty (ConfDir (Sim.cli "/home" "" "" ""))
          then ConfDir (Sim.cli "/home" "" "" "")
          else locations_GetBaseDir Sim.env
                 (if HideConsole (Sim.cli "/home" "" "" "")
                  then osutil_HideConsole Sim.env Sim.provisioned
                  else Sim.provisioned))
  /\ ConfDir (fst (fst (Run Sim.env (Sim.cli "/home" "" "" "") Sim.no_input
                            (initial Sim.provisioned))))
     = "/home".
Proof.
  apply (Run_directory_resolution Sim.World Sim.env
           (Sim.cli "/home" "" "" "") Sim.no_input Sim.provisioned
           "/home" (Ok "/home")).
  vm_compute. right. left. reflexivity.
Defined.

Lemma Run_reads_password_line_witness :
  let c := Sim.cli "" "/cfg" "" "-" in
  let s := initial Sim.provisioned in
  let run := Run Sim.env c
                 (mkStdin ("secretpass" ++ String newline "ignored")%string io_EOF)
                 s in
  let s0 := Run_prelude Sim.env c s in
  let c0 := Run_directory Sim.env c (st_world s0) in
  run = Run_generate Sim.env (set_GUIPassword c0 "secretpass")
                     (emit (EvReadLine "secretpass" false None) s0)
  /\ GUIPassword (fst (fst run)) = "secretpass".
Proof.
  apply (Run_reads_password_line Sim.World Sim.env
           (Sim.cli "" "/cfg" "" "-") "secretpass" "ignored" io_EOF
           (initial Sim.provisioned)).
  - reflexivity.
  - reflexivity.
  - reflexivity.
  - reflexivity.
  - apply Nat.ltb_lt. vm_compute. reflexivity.
Defined.

Lemma Run_reads_password_line_crlf_witness :
  GUIPassword
    (fst (fst (Run Sim.env (Sim.cli "" "/cfg" "" "-")
                   (mkStdin ("secretpass"
                               ++ String carriage_return (String newline ""))%string
                            io_EOF)
                   (initial Sim.provisioned))))
  = "secretpass".
Proof.
  apply (Run_reads_password_line_crlf Sim.World Sim.env
           (Sim.cli "" "/cfg" "" "-") "secretpass" "" io_EOF
           (initial Sim.provisioned)).
  - reflexivity.
  - reflexivity.
  - reflexivity.
  - apply Nat.ltb_lt. vm_compute. reflexivity.
Defined.

Lemma Run_reads_unterminated_line_witness :
  let e := ErrMsg "read /dev/stdin: input/output error" in
  let run := Run Sim.env (Sim.cli "" "/cfg" "" "-") (mkStdin "sec" e)
                 (initial Sim.provisioned) in
  GUIPassword (fst (fst run)) = "sec"
  /\ snd (fst run) <> Fail (ErrWrap "failed reading GUI password" e).
Proof.
  apply (Run_reads_unterminated_line Sim.World Sim.env
           (Sim.cli "" "/cfg" "" "-") "sec"
           (ErrMsg "read /dev/stdin: input/output error")
           (initial Sim.provisioned)).
  - reflexivity.
  - reflexivity.
  - discriminate.
  - reflexivity.
  - apply Nat.ltb_lt. vm_compute. reflexivity.
Defined.

Lemma Run_empty_stdin_fails_witness :
  exists c',
    Run Sim.env (Sim.cli "" "/cfg" "" "-") (mkStdin "" io_EOF)
        (initial Sim.provisioned)
    = (c', Fail (ErrWrap "failed reading GUI password" io_EOF),
       emit (EvReadLine "" false (Some io_EOF))
            (Run_prelude Sim.env (Sim.cli "" "/cfg" "" "-")
                         (initial Sim.provisioned)))
    /\ GUIPassword c' = "-".
Proof.
  apply (Run_empty_stdin_fails Sim.World Sim.env
           (Sim.cli "" "/cfg" "" "-") io_EOF (initial Sim.provisioned)).
  - reflexivity.
  - reflexivity.
Defined.

Lemma Run_stdin_password_bounded_witness :
  let password :=
    GUIPassword (fst (fst (Run Sim.env (Sim.cli "" "/cfg" "" "-")
                               (Sim.line_of Sim.long_line)
                               (initial Sim.provisioned)))) in
  has_byte newline password = false
  /\ String.length password <= defaultBufSize.
Proof.
  apply (Run_stdin_password_bounded Sim.World Sim.env
           (Sim.cli "" "/cfg" "" "-") (Sim.line_of Sim.long_line)
           (initial Sim.provisioned)).
  reflexivity.
Defined.

Lemma Run_errors_are_labelled_witness :
  let c := Sim.cli "" "/cfg" "bob" "abc123" in
  let err := ErrWrap "failed to generate config and keys"
               (ErrWrap "failed to set GUI authentication password"
                        (ErrMsg "crypto/rand: entropy source unavailable")) in
  (err = ErrMsg "--home must not be used together with --config"
   /\ HomeDir c <> "" /\ ConfDir c <> "")
  \/ (exists e line isPrefix,
         err = ErrWrap "failed reading GUI password" e
         /\ GUIPassword c = "-"
         /\ ReadLine Sim.no_input = (line, isPrefix, Some e))
  \/ (exists e confDir password s1,
         err = ErrWrap "failed to generate config and keys" e
         /\ fst (Generate Sim.env confDir (GUIUser c) password
                          (NoDefaultFolder c) (SkipPortProbing c) s1) = Fail e).
Proof.
  apply (Run_errors_are_labelled Sim.World Sim.env
           (Sim.cli "" "/cfg" "bob" "abc123") Sim.no_input
           (initial Sim.exhausted)).
  vm_compute. reflexivity.
Defined.
